(** * Carbon footprint tracker: calculation core, comparison, recommendations,
      export and persistence

    Shallow embedding of [utilis.py] (imported by the application as
    [utils]), of the submit handler of [app.py] and of [database.py].

    Python numbers are modelled as they are at run time: an [int] is an
    unbounded integer ([Z]), a [float] is an IEEE 754 binary64 value (Rocq's
    primitive [float], same format, same round-to-nearest-even operations).
    Mixed arithmetic converts the [int] operand to [float] and raises
    [OverflowError] when it does not fit; comparisons between [int] and
    [float] are exact. *)

From Stdlib Require Import ZArith Floats String List Bool Lia.
From stdpp Require Import base option list gmap strings.
Import ListNotations.
Local Open Scope string_scope.
Local Open Scope Z_scope.
Set Warnings "-inexact-float".

(* ===================================================================== *)
(** ** Python values and exceptions                                       *)
(* ===================================================================== *)

Module Py.

Inductive pyerr : Type :=
  | OverflowError
  | ZeroDivisionError
  | KeyError (key : string).

(** The outcome of evaluating an expression: a value or a raised exception. *)
Inductive exc (A : Type) : Type :=
  | Ok (a : A)
  | Raise (e : pyerr).
Arguments Ok {A} a.
Arguments Raise {A} e.

#[global] Instance exc_ret : MRet exc := fun A a => Ok a.
#[global] Instance exc_bind : MBind exc := fun A B k m =>
  match m with
  | Ok a => k a
  | Raise e => Raise e
  end.

Inductive pynum : Type :=
  | PInt (z : Z)
  | PFloat (f : float).

(** [float(z)] for an [int]: the nearest binary64 value, ties to even;
    [OverflowError] when that value would not be finite, that is when
    [|z| >= 2^1024 - 2^970]. *)
Definition fits_float (z : Z) : bool := Z.abs z <? 2 ^ 1024 - 2 ^ 970.

Definition Z2float (z : Z) : float := SF2Prim (binary_normalize prec emax z 0 false).

Definition int_to_float (z : Z) : exc float :=
  if fits_float z then Ok (Z2float z) else Raise OverflowError.

Definition to_float (x : pynum) : exc float :=
  match x with
  | PInt z => int_to_float z
  | PFloat f => Ok f
  end.

(** [x * y] *)
Definition py_mul (x y : pynum) : exc pynum :=
  match x, y with
  | PInt a, PInt b => Ok (PInt (a * b))
  | _, _ => a ← to_float x; b ← to_float y; Ok (PFloat (PrimFloat.mul a b))
  end.

(** [x + y] *)
Definition py_add (x y : pynum) : exc pynum :=
  match x, y with
  | PInt a, PInt b => Ok (PInt (a + b))
  | _, _ => a ← to_float x; b ← to_float y; Ok (PFloat (PrimFloat.add a b))
  end.

(** [a / b] for two [int]s: the float nearest to the exact quotient, ties
    to even. The quotient is taken with enough extra bits, and one more
    that records a nonzero remainder, for the rounding to be that of the
    exact value. *)
Definition int_truediv (a b : Z) : exc float :=
  if b =? 0 then Raise ZeroDivisionError
  else
    let shift := Z.max 0 (Z.log2 (Z.abs b) - Z.log2 (Z.abs a) + 56) in
    let n := Z.abs a * 2 ^ shift in
    let q := n / Z.abs b in
    let sticky := if n mod Z.abs b =? 0 then 0 else 1 in
    let m := Z.sgn a * Z.sgn b * (2 * q + sticky) in
    match binary_normalize prec emax m (- shift - 1) (b <? 0) with
    | S754_infinity _ => Raise OverflowError
    | sf => Ok (SF2Prim sf)
    end.

(** [x / y] *)
Definition py_truediv (x y : pynum) : exc pynum :=
  match x, y with
  | PInt a, PInt b => q ← int_truediv a b; Ok (PFloat q)
  | _, _ =>
      a ← to_float x; b ← to_float y;
      if PrimFloat.eqb b 0 then Raise ZeroDivisionError
      else Ok (PFloat (PrimFloat.div a b))
  end.

(** Exact comparison of a [float] with an [int]; [None] for NaN. *)
Definition float_cmp_int (f : float) (z : Z) : option comparison :=
  match Prim2SF f with
  | S754_nan => None
  | S754_infinity s => Some (if s then Lt else Gt)
  | S754_zero _ => Some (0 ?= z)
  | S754_finite s m e =>
      let v := if s then Z.neg m else Z.pos m in
      Some (if 0 <=? e then v * 2 ^ e ?= z else v ?= z * 2 ^ (- e))
  end.

(** [x > y] *)
Definition py_gt (x y : pynum) : bool :=
  match x, y with
  | PInt a, PInt b => b <? a
  | PFloat a, PFloat b => PrimFloat.ltb b a
  | PFloat a, PInt b =>
      match float_cmp_int a b with Some Gt => true | _ => false end
  | PInt a, PFloat b =>
      match float_cmp_int b a with Some Lt => true | _ => false end
  end.

(** [d[key]] *)
Definition getitem {V} (d : gmap string V) (key : string) : exc V :=
  match d !! key with
  | Some v => Ok v
  | None => Raise (KeyError key)
  end.

(** [d.get(key, dflt)] *)
Definition get {V} (d : gmap string V) (key : string) (dflt : V) : V :=
  default dflt (d !! key).

(** A dict display [{k1: v1, k2: v2, ...}]: entries are stored left to
    right, a later entry for the same key replaces the earlier one. *)
Definition dict {V} (items : list (string * V)) : gmap string V :=
  fold_left (fun d kv => <[kv.1 := kv.2]> d) items ∅.

(** [sum(xs)]: the items added from left to right, starting from the
    [int] 0. (From CPython 3.12 on, [sum] carries a correction term for the
    rounding errors of [float] items; the two agree whenever the additions
    are exact.) *)
Definition py_sum (xs : list pynum) : exc pynum :=
  fold_left (fun acc x => a ← acc; py_add a x) xs (Ok (PInt 0)).

End Py.
Import Py.

Arguments fits_float : simpl never.
Arguments Z2float : simpl never.
Arguments int_to_float : simpl never.
Arguments int_truediv : simpl never.

(* ===================================================================== *)
(** ** utilis.py: the two tables                                          *)
(* ===================================================================== *)

Definition EMISSION_FACTORS : gmap string pynum := dict [
  ("car_petrol", PFloat 0.21);
  ("car_diesel", PFloat 0.18);
  ("car_electric", PFloat 0.05);
  ("public_transport", PFloat 0.08);
  ("motorcycle", PFloat 0.11);
  ("flight_short", PFloat 0.24);
  ("flight_long", PFloat 0.18);
  ("electricity", PFloat 0.233);
  ("natural_gas", PFloat 0.184);
  ("meat_beef", PFloat 6.0);
  ("meat_pork", PFloat 1.7);
  ("meat_chicken", PFloat 0.9);
  ("vegetarian", PFloat 0.5);
  ("vegan", PFloat 0.4)
].

Definition NATIONAL_AVERAGES : gmap string pynum := dict [
  ("UK", PInt 5200);
  ("USA", PInt 16000);
  ("EU", PInt 6800);
  ("World", PInt 4800);
  ("China", PInt 7000);
  ("India", PInt 1900);
  ("Australia", PInt 15000);
  ("Canada", PInt 14000)
].

(* ===================================================================== *)
(** ** utilis.py: the calculator                                          *)
(* ===================================================================== *)

Definition calculate_transportation_emissions (transport_type : string) (distance : pynum)
  : exc pynum :=
  py_mul distance (get EMISSION_FACTORS transport_type (PInt 0)).

Definition calculate_household_emissions (electricity_kwh gas_kwh : pynum) : exc pynum :=
  fe ← getitem EMISSION_FACTORS "electricity";
  electricity_emissions ← py_mul electricity_kwh fe;
  fg ← getitem EMISSION_FACTORS "natural_gas";
  gas_emissions ← py_mul gas_kwh fg;
  py_add electricity_emissions gas_emissions.

Definition calculate_food_emissions (diet_type : string) (meals_per_week : pynum) : exc pynum :=
  py_mul meals_per_week (get EMISSION_FACTORS diet_type (PInt 0)).

(* ===================================================================== *)
(** ** utilis.py: the comparator                                          *)
(* ===================================================================== *)

Record ComparisonResult : Type := {
  country : string;
  national_avg : pynum;
  percentage : pynum;
  message : string;
  status : string
}.

Definition get_footprint_comparison (annual_footprint : pynum) (country : string)
  : exc ComparisonResult :=
  world ← getitem NATIONAL_AVERAGES "World";
  let national_avg := get NATIONAL_AVERAGES country world in
  ratio ← py_truediv annual_footprint national_avg;
  percentage ← py_mul ratio (PInt 100);
  let '(message, status) :=
    if py_gt percentage (PInt 120) then
      ("Your carbon footprint is significantly higher than the " ++ country ++ " average.",
       "high")
    else if py_gt percentage (PInt 100) then
      ("Your carbon footprint is above the " ++ country ++ " average.",
       "above_avg")
    else if py_gt percentage (PInt 80) then
      ("Your carbon footprint is close to the " ++ country ++ " average.",
       "average")
    else if py_gt percentage (PInt 50) then
      ("Your carbon footprint is below the " ++ country ++ " average. Good job!",
       "below_avg")
    else
      ("Your carbon footprint is significantly lower than the " ++ country ++ " average. Excellent!",
       "low") in
  Ok {| country := country;
        national_avg := national_avg;
        percentage := percentage;
        message := message;
        status := status |}.

(* ===================================================================== *)
(** ** utilis.py: the recommendation engine                               *)
(* ===================================================================== *)

Definition REC_DRIVING : string :=
  "Consider carpooling, using public transport, or cycling for short journeys to reduce your driving emissions.".
Definition REC_FLIGHTS : string :=
  "Reduce the number of flights you take. Consider trains for shorter journeys or virtual meetings instead of business travel.".
Definition REC_ELECTRICITY : string :=
  "Reduce your electricity consumption by using energy-efficient appliances, LED bulbs, and being mindful of standby power.".
Definition REC_GAS : string :=
  "Improve your home insulation and consider lowering your heating thermostat by 1-2°C to save energy.".
Definition REC_BEEF : string :=
  "Consider reducing beef consumption. Beef has one of the highest carbon footprints among food items.".
Definition REC_MEAT_FREE : string :=
  "Try introducing 1-2 meat-free days per week to reduce your food-related carbon footprint.".

Definition GENERAL_RECOMMENDATIONS : list string := [
  "Consider using renewable energy sources for your home.";
  "Look into carbon offsetting programs for emissions you can't reduce.";
  "Reduce, reuse, and recycle to minimize waste-related emissions.";
  "Support local businesses to reduce transportation emissions from goods."
].

(** [recommendations.append(msg)] under [if cond:] *)
Definition append_if (cond : bool) (msg : string) (recommendations : list string) : list string :=
  if cond then (recommendations ++ [msg])%list else recommendations.

(** The left operand of the last rule:
    [get("meat_beef", 0) + get("meat_pork", 0) + get("meat_chicken", 0)]. *)
Definition meat_emissions (emissions_data : gmap string pynum) : exc pynum :=
  beef_pork ← py_add (get emissions_data "meat_beef" (PInt 0))
                     (get emissions_data "meat_pork" (PInt 0));
  py_add beef_pork (get emissions_data "meat_chicken" (PInt 0)).

Definition get_recommendations (emissions_data : gmap string pynum) : exc (list string) :=
  let recommendations := [] in
  let recommendations :=
    append_if (py_gt (get emissions_data "car_petrol" (PInt 0)) (PInt 30)
               || py_gt (get emissions_data "car_diesel" (PInt 0)) (PInt 30))
              REC_DRIVING recommendations in
  let recommendations :=
    append_if (py_gt (get emissions_data "flight_short" (PInt 0)) (PInt 50)
               || py_gt (get emissions_data "flight_long" (PInt 0)) (PInt 100))
              REC_FLIGHTS recommendations in
  let recommendations :=
    append_if (py_gt (get emissions_data "electricity" (PInt 0)) (PInt 40))
              REC_ELECTRICITY recommendations in
  let recommendations :=
    append_if (py_gt (get emissions_data "natural_gas" (PInt 0)) (PInt 30))
              REC_GAS recommendations in
  let recommendations :=
    append_if (py_gt (get emissions_data "meat_beef" (PInt 0)) (PInt 15))
              REC_BEEF recommendations in
  meat ← meat_emissions emissions_data;
  let recommendations :=
    append_if (py_gt meat (PInt 20)) REC_MEAT_FREE recommendations in
  let recommendations :=
    match recommendations with
    | [] => GENERAL_RECOMMENDATIONS
    | _ :: _ => recommendations
    end in
  Ok recommendations.

(* ===================================================================== *)
(** ** utilis.py: the export formatter                                    *)
(* ===================================================================== *)

(** One row of the data frame; the columns are [Category], [Timeframe] and
    [Emissions (kg CO2)]. *)
Record Row : Type := {
  Category : string;
  Timeframe : string;
  Emissions : pynum
}.

(** The result bundle kept in the session state. [weekly_breakdown] is a
    dict iterated in insertion order, so it is kept as the list of its
    items. *)
Record Results : Type := {
  weekly_total : pynum;
  annual_total : pynum;
  weekly_breakdown : list (string * pynum);
  comparison : ComparisonResult;
  recommendations : list string
}.

Definition format_emissions_for_download (data : Results) : list Row :=
  let rows : list Row := [] in
  let rows : list Row :=
    fold_left
      (fun (rows : list Row) '(category, value) =>
         (rows ++ [{| Category := category; Timeframe := "Weekly"; Emissions := value |}])%list)
      (weekly_breakdown data) rows in
  let rows : list Row :=
    (rows ++ [{| Category := "Total"; Timeframe := "Weekly";
                 Emissions := weekly_total data |}])%list in
  let rows : list Row :=
    (rows ++ [{| Category := "Total"; Timeframe := "Annual";
                 Emissions := annual_total data |}])%list in
  let rows : list Row :=
    (rows ++ [{| Category := "National Average"; Timeframe := "Annual";
                 Emissions := national_avg (comparison data) |}])%list in
  rows.

(* ===================================================================== *)
(** ** app.py: the submit handler of the calculator form                  *)
(* ===================================================================== *)

(** The answers given in the form. The number inputs declared with
    [min_value=0.0] return a [float], those declared with [min_value=0,
    step=1] return an [int]. [diet_answers] gives, for each key of
    [diet_options], the number entered in its widget. *)
Record CalculationInput : Type := {
  transport_type : string;
  weekly_distance : float;
  short_flights : Z;
  long_flights : Z;
  electricity_kwh : float;
  gas_kwh : float;
  diet_answers : string -> Z;
  country_choice : string
}.

Definition diet_options : list (string * string) := [
  ("meat_beef", "Beef meals");
  ("meat_pork", "Pork meals");
  ("meat_chicken", "Chicken meals");
  ("vegetarian", "Vegetarian meals");
  ("vegan", "Vegan meals")
].

(** [d[key] = value] on a dict kept as the list of its items: an existing
    key keeps its position, a new key goes last. *)
Fixpoint setitem {V} (d : list (string * V)) (key : string) (value : V) : list (string * V) :=
  match d with
  | [] => [(key, value)]
  | (k, v) :: rest =>
      if String.eqb k key then (k, value) :: rest else (k, v) :: setitem rest key value
  end.

(** [for diet_key, diet_label in diet_options.items(): diet_inputs[diet_key] = ...] *)
Definition diet_inputs (i : CalculationInput) : list (string * Z) :=
  fold_left (fun d '(diet_key, diet_label) => setitem d diet_key (diet_answers i diet_key))
            diet_options [].

(** [for diet_type, meals in diet_inputs.items():
       diet_emissions[diet_type] = utils.calculate_food_emissions(diet_type, meals)] *)
Fixpoint diet_loop (items : list (string * Z)) (diet_emissions : list (string * pynum))
  : exc (list (string * pynum)) :=
  match items with
  | [] => Ok diet_emissions
  | (diet_type, meals) :: rest =>
      e ← calculate_food_emissions diet_type (PInt meals);
      diet_loop rest (setitem diet_emissions diet_type e)
  end.

Definition short_flight_distance : pynum := PInt 1000.
Definition long_flight_distance : pynum := PInt 6000.

(** The body of [if submitted:], up to the result bundle stored in the
    session state (its [timestamp] entry, read from the clock, is left
    out). *)
Definition on_submit (i : CalculationInput) : exc Results :=
  transport_emissions ←
    calculate_transportation_emissions (transport_type i) (PFloat (weekly_distance i));
  short_km ← py_mul (PInt (short_flights i)) short_flight_distance;
  f_short ← getitem EMISSION_FACTORS "flight_short";
  short_year ← py_mul short_km f_short;
  flight_short_emissions ← py_truediv short_year (PInt 52);
  long_km ← py_mul (PInt (long_flights i)) long_flight_distance;
  f_long ← getitem EMISSION_FACTORS "flight_long";
  long_year ← py_mul long_km f_long;
  flight_long_emissions ← py_truediv long_year (PInt 52);
  household_emissions ←
    calculate_household_emissions (PFloat (electricity_kwh i)) (PFloat (gas_kwh i));
  diet_emissions ← diet_loop (diet_inputs i) [];
  total_diet_emissions ← py_sum (map snd diet_emissions);
  s1 ← py_add transport_emissions flight_short_emissions;
  s2 ← py_add s1 flight_long_emissions;
  s3 ← py_add s2 household_emissions;
  weekly_total ← py_add s3 total_diet_emissions;
  annual_total ← py_mul weekly_total (PInt 52);
  let weekly_breakdown := [
    ("Transportation", transport_emissions);
    ("Short Flights", flight_short_emissions);
    ("Long Flights", flight_long_emissions);
    ("Household Energy", household_emissions);
    ("Diet", total_diet_emissions)
  ] in
  f_el ← getitem EMISSION_FACTORS "electricity";
  el ← py_mul (PFloat (electricity_kwh i)) f_el;
  f_gas ← getitem EMISSION_FACTORS "natural_gas";
  gas ← py_mul (PFloat (gas_kwh i)) f_gas;
  let detailed_emissions := dict ([
    (transport_type i, transport_emissions);
    ("flight_short", flight_short_emissions);
    ("flight_long", flight_long_emissions);
    ("electricity", el);
    ("natural_gas", gas)
  ] ++ diet_emissions)%list in
  comparison ← get_footprint_comparison annual_total (country_choice i);
  recommendations ← get_recommendations detailed_emissions;
  Ok {| weekly_total := weekly_total;
        annual_total := annual_total;
        weekly_breakdown := weekly_breakdown;
        comparison := comparison;
        recommendations := recommendations |}.

(* ===================================================================== *)
(** ** database.py: the persistence gateway                               *)
(* ===================================================================== *)

Module Database.

(** A row of the table [carbon_footprints]; [id] is the primary key. *)
Record CarbonFootprint : Type := {
  id : Z;
  user_name : string;
  email : string;
  weekly_total : float;
  annual_total : float;
  transport_emissions : float;
  short_flights_emissions : float;
  long_flights_emissions : float;
  household_emissions : float;
  diet_emissions : float;
  country : string;
  timestamp : string
}.

(** The table as stored: its rows, in storage order. *)
Abbreviation Table := (list CarbonFootprint).

(** The primary key constraint. *)
Definition primary_key (t : Table) : Prop := NoDup (map id t).

(** What the database server does with the statements of one call: whether
    the SELECT and the COMMIT go through or raise. *)
Record Backend : Type := {
  select_ok : bool;
  commit_ok : bool
}.

Definition reliable : Backend := {| select_ok := true; commit_ok := true |}.

Inductive db_error : Type :=
  | OperationalError.

Inductive outcome (A : Type) : Type :=
  | Returned (a : A)
  | Raised (e : db_error).
Arguments Returned {A} a.
Arguments Raised {A} e.

(** A session: the table it is bound to and the rows marked for deletion
    that are not yet committed. *)
Record SessionState : Type := {
  table : Table;
  pending : list Z
}.

(** [Session()] *)
Definition Session (t : Table) : SessionState := {| table := t; pending := [] |}.

(** [session.query(CarbonFootprint).filter_by(id=footprint_id).first()] *)
Definition query_first_by_id (b : Backend) (s : SessionState) (footprint_id : Z)
  : outcome (option CarbonFootprint) :=
  if select_ok b then Returned (List.find (fun r => id r =? footprint_id) (table s))
  else Raised OperationalError.

(** [session.delete(footprint)] *)
Definition delete (s : SessionState) (footprint : CarbonFootprint) : SessionState :=
  {| table := table s; pending := pending s ++ [id footprint] |}.

(** [session.commit()]: the rows marked for deletion leave the table. *)
Definition commit (b : Backend) (s : SessionState) : outcome SessionState :=
  if commit_ok b then
    Returned {| table := List.filter (fun r => negb (existsb (Z.eqb (id r)) (pending s))) (table s);
                pending := [] |}
  else Raised OperationalError.

(** [session.rollback()] *)
Definition rollback (s : SessionState) : SessionState :=
  {| table := table s; pending := [] |}.

(** [session.close()]: what is not committed is dropped; the table stays. *)
Definition close (s : SessionState) : Table := table s.

(** [delete_footprint(footprint_id)], run on the table [t]: the outcome of
    the call and the table afterwards. *)
Definition delete_footprint (b : Backend) (footprint_id : Z) (t : Table)
  : outcome bool * Table :=
  let session := Session t in
  (* try: *)
  match query_first_by_id b session footprint_id with
  | Returned (Some footprint) =>
      let session := delete session footprint in
      match commit b session with
      | Returned session => (Returned true, close session)
      | Raised e => (* except: *) let session := rollback session in (Raised e, close session)
      end
  | Returned None => (Returned false, close session)
  | Raised e => (* except: *) let session := rollback session in (Raised e, close session)
  end.

End Database.

(* ===================================================================== *)
(** ** Vocabulary of the specification                                    *)
(* ===================================================================== *)

(** The classification band of a percentage: the thresholds are tried from
    the highest down and the first one exceeded decides. *)
Definition band (p : pynum) : string :=
  if py_gt p (PInt 120) then "high"
  else if py_gt p (PInt 100) then "above_avg"
  else if py_gt p (PInt 80) then "average"
  else if py_gt p (PInt 50) then "below_avg"
  else "low".

(** For each band, the text of its message before and after the name of
    the country. *)
Definition message_templates : list (string * (string * string)) := [
  ("high", ("Your carbon footprint is significantly higher than the ", " average."));
  ("above_avg", ("Your carbon footprint is above the ", " average."));
  ("average", ("Your carbon footprint is close to the ", " average."));
  ("below_avg", ("Your carbon footprint is below the ", " average. Good job!"));
  ("low", ("Your carbon footprint is significantly lower than the ", " average. Excellent!"))
].

(** A national average the comparator can divide by. *)
Definition usable_average (v : pynum) : bool :=
  match v with
  | PInt z =>
      match int_to_float z with
      | Ok n => negb (PrimFloat.eqb n 0)
      | Raise _ => false
      end
  | PFloat _ => false
  end.

(** The rules of the engine as a table: for each rule, whether its
    threshold holds on [emissions_data] (with [meat] the value of the
    beef+pork+chicken sum) and the message it appends. *)
Definition rule_table (emissions_data : gmap string pynum) (meat : pynum)
  : list (bool * string) := [
  (py_gt (get emissions_data "car_petrol" (PInt 0)) (PInt 30)
   || py_gt (get emissions_data "car_diesel" (PInt 0)) (PInt 30), REC_DRIVING);
  (py_gt (get emissions_data "flight_short" (PInt 0)) (PInt 50)
   || py_gt (get emissions_data "flight_long" (PInt 0)) (PInt 100), REC_FLIGHTS);
  (py_gt (get emissions_data "electricity" (PInt 0)) (PInt 40), REC_ELECTRICITY);
  (py_gt (get emissions_data "natural_gas" (PInt 0)) (PInt 30), REC_GAS);
  (py_gt (get emissions_data "meat_beef" (PInt 0)) (PInt 15), REC_BEEF);
  (py_gt meat (PInt 20), REC_MEAT_FREE)
].

(** The messages of the rules that fire, in the order of the table. *)
Definition fired (emissions_data : gmap string pynum) (meat : pynum) : list string :=
  map snd (List.filter fst (rule_table emissions_data meat)).

(** A per-detail mapping as the handler builds it: every value a [float]. *)
Definition float_valued (d : gmap string pynum) : Prop :=
  map_Forall (fun _ v => exists f, v = PFloat f) d.

(** A mapping all of whose values are zero, as [int] or as [float]. *)
Definition zero_valued (d : gmap string pynum) : Prop :=
  map_Forall (fun _ v => v = PInt 0 \/ v = PFloat 0) d.

(** The row of the export for one item of the breakdown. *)
Definition weekly_row (item : string * pynum) : Row :=
  {| Category := item.1; Timeframe := "Weekly"; Emissions := item.2 |}.

(** The input converts: the flight distances and the meal counts, which
    are [int]s, fit in a [float]. *)
Definition convertible (i : CalculationInput) : Prop :=
  fits_float (short_flights i * 1000) = true /\
  fits_float (long_flights i * 6000) = true /\
  Forall (fun item => fits_float item.2 = true) (diet_inputs i).

(** The emissions of the five diet categories, in the order of the form. *)
Definition diet_floats (i : CalculationInput) : list (string * pynum) := [
  ("meat_beef", PFloat (Z2float (diet_answers i "meat_beef") * 6.0));
  ("meat_pork", PFloat (Z2float (diet_answers i "meat_pork") * 1.7));
  ("meat_chicken", PFloat (Z2float (diet_answers i "meat_chicken") * 0.9));
  ("vegetarian", PFloat (Z2float (diet_answers i "vegetarian") * 0.5));
  ("vegan", PFloat (Z2float (diet_answers i "vegan") * 0.4)) ].

(** The weekly share of [count] flights a year of [km] kilometres each. *)
Definition flight_weekly (count km : Z) (factor : float) : float :=
  Z2float (count * km) * factor / 52.

Definition household_weekly (e g : float) : float := e * 0.233 + g * 0.184.

(** The values of a breakdown added from left to right. *)
Definition sum_in_order (values : list pynum) : exc pynum :=
  match values with
  | [] => Ok (PInt 0)
  | v :: vs => fold_left (fun acc x => a ← acc; py_add a x) vs (Ok v)
  end.

(** The end-to-end scenario: a petrol car driven 100 km a week, 100 kWh of
    electricity, no gas, two beef meals, no flights. *)
Definition scenario (c : string) : CalculationInput := {|
  transport_type := "car_petrol";
  weekly_distance := 100;
  short_flights := 0;
  long_flights := 0;
  electricity_kwh := 100;
  gas_kwh := 0;
  diet_answers := fun k => if String.eqb k "meat_beef" then 2 else 0;
  country_choice := c
|}.

Definition fifty_two_short_flights : CalculationInput := {|
  transport_type := "public_transport";
  weekly_distance := 40;
  short_flights := 52;
  long_flights := 1;
  electricity_kwh := 30;
  gas_kwh := 10;
  diet_answers := fun _ => 4;
  country_choice := "EU"
|}.

Definition sample_footprint (n : Z) : Database.CarbonFootprint :=
  {| Database.id := n;
     Database.user_name := "Ada";
     Database.email := "ada@example.org";
     Database.weekly_total := 56.3;
     Database.annual_total := 2927.6;
     Database.transport_emissions := 21;
     Database.short_flights_emissions := 0;
     Database.long_flights_emissions := 0;
     Database.household_emissions := 23.3;
     Database.diet_emissions := 12;
     Database.country := "UK";
     Database.timestamp := "2024-01-01 12:00:00" |}.

(* ===================================================================== *)
(** ** database.py: reading and saving                                    *)
(* ===================================================================== *)

Module Store.

(** The number of characters of a string in UTF-8: the bytes that are not
    continuation bytes. *)
Fixpoint char_length (s : string) : nat :=
  match s with
  | EmptyString => 0%nat
  | String c rest =>
      if (128 <=? Z.of_N (Ascii.N_of_ascii c)) && (Z.of_N (Ascii.N_of_ascii c) <? 192)
      then char_length rest
      else S (char_length rest)
  end.

(** The exceptions a call that saves can raise: a missing key of the
    result bundle, a value the columns refuse, a taken identifier, a
    failure of the server. *)
Inductive save_error : Type :=
  | KeyError (key : string)
  | DataError
  | IntegrityError
  | ServerError (e : Database.db_error).

Inductive save_outcome (A : Type) : Type :=
  | Saved (a : A)
  | Failed (e : save_error).
Arguments Saved {A} a.
Arguments Failed {A} e.

(** A value bound to a [Float] column: a [float] as it is, an [int]
    converted, refused when it is out of the range of the column. *)
Definition column_float (x : pynum) : option float :=
  match to_float x with
  | Ok f => Some f
  | Raise _ => None
  end.

(** The object built by [CarbonFootprint(user_name=..., ...)]: the
    arguments as evaluated, in the order they are written. A missing key of
    the breakdown raises [KeyError]. *)
Record NewFootprint : Type := {
  new_user_name : string;
  new_email : string;
  new_weekly_total : pynum;
  new_annual_total : pynum;
  new_transport_emissions : pynum;
  new_short_flights_emissions : pynum;
  new_long_flights_emissions : pynum;
  new_household_emissions : pynum;
  new_diet_emissions : pynum;
  new_country : string
}.

Definition breakdown_item (results : Results) (key : string) : save_outcome pynum :=
  match dict (weekly_breakdown results) !! key with
  | Some v => Saved v
  | None => Failed (KeyError key)
  end.

Definition new_footprint (user_name email : string) (results : Results)
  : save_outcome NewFootprint :=
  match breakdown_item results "Transportation" with
  | Failed e => Failed e
  | Saved transport =>
  match breakdown_item results "Short Flights" with
  | Failed e => Failed e
  | Saved short =>
  match breakdown_item results "Long Flights" with
  | Failed e => Failed e
  | Saved long =>
  match breakdown_item results "Household Energy" with
  | Failed e => Failed e
  | Saved household =>
  match breakdown_item results "Diet" with
  | Failed e => Failed e
  | Saved diet =>
      Saved {| new_user_name := user_name;
               new_email := email;
               new_weekly_total := weekly_total results;
               new_annual_total := annual_total results;
               new_transport_emissions := transport;
               new_short_flights_emissions := short;
               new_long_flights_emissions := long;
               new_household_emissions := household;
               new_diet_emissions := diet;
               new_country := country (comparison results) |}
  end end end end end.

(** The row the server stores for a new object: the identifier it
    assigns, the values as the columns take them ([String(100)],
    [String(50)], [Float]), the time of the insert. [None] when a column
    refuses its value. *)
Definition stored_row (new_id : Z) (now : string) (f : NewFootprint)
  : option Database.CarbonFootprint :=
  if (char_length (new_user_name f) <=? 100)%nat
     && (char_length (new_email f) <=? 100)%nat
     && (char_length (new_country f) <=? 50)%nat
  then
    wt ← column_float (new_weekly_total f);
    at_ ← column_float (new_annual_total f);
    te ← column_float (new_transport_emissions f);
    sf ← column_float (new_short_flights_emissions f);
    lf ← column_float (new_long_flights_emissions f);
    he ← column_float (new_household_emissions f);
    de ← column_float (new_diet_emissions f);
    Some {| Database.id := new_id;
            Database.user_name := new_user_name f;
            Database.email := new_email f;
            Database.weekly_total := wt;
            Database.annual_total := at_;
            Database.transport_emissions := te;
            Database.short_flights_emissions := sf;
            Database.long_flights_emissions := lf;
            Database.household_emissions := he;
            Database.diet_emissions := de;
            Database.country := new_country f;
            Database.timestamp := now |}
  else None.

(** The INSERT of [session.commit()]: the row goes last in the table,
    unless a column refuses a value or the identifier is taken. *)
Definition insert (new_id : Z) (now : string) (f : NewFootprint) (t : Database.Table)
  : save_outcome Database.Table :=
  match stored_row new_id now f with
  | None => Failed DataError
  | Some row =>
      if existsb (Z.eqb new_id) (map Database.id t) then Failed IntegrityError
      else Saved (t ++ [row])%list
  end.

(** [save_footprint(user_name, email, results)], run on the table [t] at
    the time [now], [new_id] being the identifier the server draws: the
    outcome of the call and the table afterwards. *)
Definition save_footprint (b : Database.Backend) (new_id : Z) (now : string)
    (user_name email : string) (results : Results) (t : Database.Table)
  : save_outcome Z * Database.Table :=
  (* try: *)
  match new_footprint user_name email results with
  | Failed e => (* except: rollback *) (Failed e, t)
  | Saved footprint =>
      (* session.add(footprint); session.commit() *)
      if Database.commit_ok b then
        match insert new_id now footprint t with
        | Failed e => (* except: rollback *) (Failed e, t)
        | Saved t' =>
            (* return footprint.id: the object, expired by the commit, is
               read again *)
            if Database.select_ok b then (Saved new_id, t')
            else (Failed (ServerError Database.OperationalError), t')
        end
      else (* except: rollback *) (Failed (ServerError Database.OperationalError), t)
  end.

(** What [to_dict] returns: one entry per column. *)
Record FootprintDict : Type := {
  id : Z;
  user_name : string;
  email : string;
  weekly_total : float;
  annual_total : float;
  transport_emissions : float;
  short_flights_emissions : float;
  long_flights_emissions : float;
  household_emissions : float;
  diet_emissions : float;
  country : string;
  timestamp : string
}.

Section Clock.

(** [strftime "%Y-%m-%d %H:%M:%S"] on a stored timestamp. *)
Variable strftime : string -> string.

(** [CarbonFootprint.to_dict] *)
Definition to_dict (self : Database.CarbonFootprint) : FootprintDict :=
  {| id := Database.id self;
     user_name := Database.user_name self;
     email := Database.email self;
     weekly_total := Database.weekly_total self;
     annual_total := Database.annual_total self;
     transport_emissions := Database.transport_emissions self;
     short_flights_emissions := Database.short_flights_emissions self;
     long_flights_emissions := Database.long_flights_emissions self;
     household_emissions := Database.household_emissions self;
     diet_emissions := Database.diet_emissions self;
     country := Database.country self;
     timestamp := strftime (Database.timestamp self) |}.

(** [session.query(CarbonFootprint).all()] *)
Definition query_all (b : Database.Backend) (s : Database.SessionState)
  : Database.outcome (list Database.CarbonFootprint) :=
  if Database.select_ok b then Database.Returned (Database.table s)
  else Database.Raised Database.OperationalError.

(** [session.query(CarbonFootprint).filter_by(email=email).all()] *)
Definition query_all_by_email (b : Database.Backend) (s : Database.SessionState)
    (email : string) : Database.outcome (list Database.CarbonFootprint) :=
  if Database.select_ok b then
    Database.Returned
      (List.filter (fun r => String.eqb (Database.email r) email) (Database.table s))
  else Database.Raised Database.OperationalError.

(** [get_all_footprints()] *)
Definition get_all_footprints (b : Database.Backend) (t : Database.Table)
  : Database.outcome (list FootprintDict) :=
  let session := Database.Session t in
  match query_all b session with
  | Database.Returned footprints => Database.Returned (map to_dict footprints)
  | Database.Raised e => Database.Raised e
  end.

(** [get_footprint_by_id(footprint_id)] *)
Definition get_footprint_by_id (b : Database.Backend) (footprint_id : Z) (t : Database.Table)
  : Database.outcome (option FootprintDict) :=
  let session := Database.Session t in
  match Database.query_first_by_id b session footprint_id with
  | Database.Returned (Some footprint) => Database.Returned (Some (to_dict footprint))
  | Database.Returned None => Database.Returned None
  | Database.Raised e => Database.Raised e
  end.

(** [get_footprints_by_email(email)] *)
Definition get_footprints_by_email (b : Database.Backend) (email : string) (t : Database.Table)
  : Database.outcome (list FootprintDict) :=
  let session := Database.Session t in
  match query_all_by_email b session email with
  | Database.Returned footprints => Database.Returned (map to_dict footprints)
  | Database.Raised e => Database.Raised e
  end.

End Clock.

End Store.

(* ===================================================================== *)
(** ** app.py: the save form                                              *)
(* ===================================================================== *)



(** A result bundle with the five categories of the handler. *)
Definition sample_results : Results := {|
  weekly_total := PFloat 56.3;
  annual_total := PFloat 2927.6;
  weekly_breakdown := [
    ("Transportation", PFloat 21.0);
    ("Short Flights", PFloat 0);
    ("Long Flights", PFloat 0);
    ("Household Energy", PFloat 23.3);
    ("Diet", PFloat 12.0) ];
  comparison := {| country := "UK"; national_avg := PInt 5200; percentage := PFloat 56.3;
                   message := "Your carbon footprint is below the UK average. Good job!";
                   status := "below_avg" |};
  recommendations := GENERAL_RECOMMENDATIONS
|}.

(** The per-detail mapping the handler passes to the recommendation engine,
    [te] being the transport emissions and [td] standing for nothing here:
    the entries are those of the dict display, in its order. *)
Definition detailed_emissions_of (i : CalculationInput) (te : float) : gmap string pynum :=
  dict ([ (transport_type i, PFloat te);
          ("flight_short", PFloat (flight_weekly (short_flights i) 1000 0.24));
          ("flight_long", PFloat (flight_weekly (long_flights i) 6000 0.18));
          ("electricity", PFloat (electricity_kwh i * 0.233));
          ("natural_gas", PFloat (gas_kwh i * 0.184)) ]
        ++ diet_floats i)%list.

(** [calculate_household_emissions(electricity_kwh)]: [gas_kwh] takes its
    default, the [int] 0. *)
Definition calculate_household_emissions_default (electricity_kwh : pynum) : exc pynum :=
  calculate_household_emissions electricity_kwh (PInt 0).

(** The five bands, from the highest. *)
Definition BANDS : list string := ["high"; "above_avg"; "average"; "below_avg"; "low"].

(** The messages of the six rules, in the order of the rules. *)
Definition RULE_MESSAGES : list string :=
  [REC_DRIVING; REC_FLIGHTS; REC_ELECTRICITY; REC_GAS; REC_BEEF; REC_MEAT_FREE].

(** The same answers with another country chosen. *)
Definition with_country (i : CalculationInput) (c : string) : CalculationInput := {|
  transport_type := transport_type i;
  weekly_distance := weekly_distance i;
  short_flights := short_flights i;
  long_flights := long_flights i;
  electricity_kwh := electricity_kwh i;
  gas_kwh := gas_kwh i;
  diet_answers := diet_answers i;
  country_choice := c
|}.

(** A week without travel, energy use or meals. *)
Definition idle_week (transport c : string) : CalculationInput := {|
  transport_type := transport;
  weekly_distance := 0;
  short_flights := 0;
  long_flights := 0;
  electricity_kwh := 0;
  gas_kwh := 0;
  diet_answers := fun _ => 0;
  country_choice := c
|}.

(* ===================================================================== *)
(** ** app.py: the analytics of the saved footprints                      *)
(* ===================================================================== *)

(** [min(xs)] for a first item [x] and the [rest]: an item replaces the
    minimum kept so far when it is less than it. *)
Definition py_min (x : float) (rest : list float) : float :=
  fold_left (fun m y => if PrimFloat.ltb y m then y else m) rest x.

(** [max(xs)]: an item replaces the maximum kept so far when it is greater
    than it. *)
Definition py_max (x : float) (rest : list float) : float :=
  fold_left (fun m y => if PrimFloat.ltb m y then y else m) rest x.

Record Analytics : Type := {
  avg_annual : pynum;
  min_annual : float;
  max_annual : float
}.

(** The three metrics under [if len(all_footprints) > 1:]; [None] when the
    block is skipped. *)
Definition footprint_analytics (all_footprints : list Store.FootprintDict)
  : option (exc Analytics) :=
  if (1 <? length all_footprints)%nat then
    match map Store.annual_total all_footprints with
    | [] => None
    | x :: rest =>
        Some (total ← py_sum (map PFloat (x :: rest));
              avg ← py_truediv total (PInt (Z.of_nat (length all_footprints)));
              Ok {| avg_annual := avg;
                    min_annual := py_min x rest;
                    max_annual := py_max x rest |})
    end
  else None.

(** A float that is a number, placed on a scale of integer triples ordered
    lexicographically. *)
Definition float_key (x : spec_float) : Z * Z * Z :=
  match x with
  | S754_infinity true => (-2, 0, 0)
  | S754_finite true m e => (-1, - e, - Z.pos m)
  | S754_zero _ => (0, 0, 0)
  | S754_nan => (0, 0, 0)
  | S754_finite false m e => (1, e, Z.pos m)
  | S754_infinity false => (2, 0, 0)
  end.

Definition key_lt (a b : Z * Z * Z) : Prop :=
  a.1.1 < b.1.1 \/ (a.1.1 = b.1.1 /\ (a.1.2 < b.1.2 \/ (a.1.2 = b.1.2 /\ a.2 < b.2))).

Definition key_le (a b : Z * Z * Z) : Prop :=
  a.1.1 < b.1.1 \/ (a.1.1 = b.1.1 /\ (a.1.2 < b.1.2 \/ (a.1.2 = b.1.2 /\ a.2 <= b.2))).


(** A saved row with other totals, and a table of three saved rows. *)
Definition with_totals (r : Database.CarbonFootprint) (weekly annual : float)
  : Database.CarbonFootprint :=
  {| Database.id := Database.id r;
     Database.user_name := Database.user_name r;
     Database.email := Database.email r;
     Database.weekly_total := weekly;
     Database.annual_total := annual;
     Database.transport_emissions := Database.transport_emissions r;
     Database.short_flights_emissions := Database.short_flights_emissions r;
     Database.long_flights_emissions := Database.long_flights_emissions r;
     Database.household_emissions := Database.household_emissions r;
     Database.diet_emissions := Database.diet_emissions r;
     Database.country := Database.country r;
     Database.timestamp := Database.timestamp r |}.

Definition three_saved_rows : Database.Table :=
  [ sample_footprint 1;
    with_totals (sample_footprint 2) 10.5 546;
    with_totals (sample_footprint 3) 120 6240 ].

(* ===================================================================== *)
(** * Properties *)
(* ===================================================================== *)

(* ===================================================================== *)
(** ** What Python's numbers do *)
(* ===================================================================== *)

Ltac exc_simpl := cbn [py_mul py_add py_truediv to_float mbind exc_bind mret exc_ret].

Lemma bind_Ok_inv {A B} (m : exc A) (k : A -> exc B) (b : B) :
  m ≫= k = Ok b -> exists a, m = Ok a /\ k a = Ok b.
Proof. destruct m as [a|e]; [|discriminate]. intros H. exists a. split; [reflexivity|exact H]. Qed.

Lemma int_to_float_0 : int_to_float 0 = Ok 0%float.
Proof. vm_compute. reflexivity. Qed.

Lemma int_to_float_52 : int_to_float 52 = Ok 52%float.
Proof. vm_compute. reflexivity. Qed.

Lemma int_to_float_100 : int_to_float 100 = Ok 100%float.
Proof. vm_compute. reflexivity. Qed.

Lemma int_to_float_fits (z : Z) : fits_float z = true -> int_to_float z = Ok (Z2float z).
Proof. unfold int_to_float. intros ->. reflexivity. Qed.

Lemma int_to_float_Ok (z : Z) (f : float) :
  int_to_float z = Ok f -> fits_float z = true /\ f = Z2float z.
Proof.
  unfold int_to_float. destruct (fits_float z); [|discriminate].
  intros H. injection H as <-. split; reflexivity.
Qed.

Lemma float_52_nonzero : PrimFloat.eqb 52 0 = false.
Proof. reflexivity. Qed.

(** Conversion rounds to the nearest float, ties to even, and raises past
    the largest one. *)
Example int_to_float_examples :
  int_to_float (2 ^ 53 + 1) = Ok 9007199254740992%float /\
  int_to_float (2 ^ 53 + 3) = Ok 9007199254740996%float /\
  int_to_float (2 ^ 1024 - 2 ^ 970 - 1) = Ok 0x1.fffffffffffffp+1023%float /\
  int_to_float (2 ^ 1024 - 2 ^ 970) = Raise OverflowError.
Proof. repeat split; vm_compute; reflexivity. Qed.

(** An [int] and a [float] are compared by value, not after conversion. *)
Example py_gt_examples :
  py_gt (PInt (2 ^ 53 + 1)) (PFloat 9007199254740992) = true /\
  py_gt (PFloat 9007199254740992) (PInt (2 ^ 53 + 1)) = false /\
  py_gt (PFloat 30.000000000000004) (PInt 30) = true /\
  py_gt (PFloat 30) (PInt 30) = false /\
  py_gt (PFloat nan) (PInt 0) = false /\
  py_gt (PFloat infinity) (PInt (10 ^ 400)) = true.
Proof. repeat split; vm_compute; reflexivity. Qed.

Example int_truediv_examples :
  int_truediv 1 3 = Ok 0.3333333333333333%float /\
  int_truediv (10 ^ 400) (10 ^ 399) = Ok 10%float /\
  int_truediv 3 (2 ^ 1075) = Ok 1e-323%float /\
  int_truediv (2 ^ 1024) 1 = Raise OverflowError /\
  int_truediv 5 0 = Raise ZeroDivisionError.
Proof. repeat split; vm_compute; reflexivity. Qed.

Lemma float_mul_zero (d : float) :
  PrimFloat.is_finite d = true -> PrimFloat.eqb (d * 0) 0 = true.
Proof.
  unfold PrimFloat.is_finite, PrimFloat.is_nan, PrimFloat.is_infinity.
  rewrite !FloatAxioms.eqb_spec, FloatAxioms.abs_spec, FloatAxioms.mul_spec.
  change (Prim2SF infinity) with (S754_infinity false).
  change (Prim2SF 0) with (S754_zero false).
  destruct (Prim2SF d) as [s|s| |s m e]; intros H.
  - destruct s; reflexivity.
  - destruct s; discriminate H.
  - discriminate H.
  - destruct s; reflexivity.
Qed.

Lemma digits2_pos_bounds (m : positive) :
  2 ^ (Z.pos (digits2_pos m) - 1) <= Z.pos m < 2 ^ Z.pos (digits2_pos m).
Proof.
  induction m as [m IH | m IH |]; cbn [digits2_pos].
  1, 2: rewrite Pos2Z.inj_succ;
    replace (Z.succ (Z.pos (digits2_pos m)) - 1)
      with (Z.succ (Z.pos (digits2_pos m) - 1)) by lia;
    rewrite !Z.pow_succ_r by lia; lia.
  cbn. lia.
Qed.

(** A valid finite float has at most 53 digits, and exactly 53 unless its
    exponent is the least one. *)
Lemma valid_finite_digits (s : bool) (m : positive) (e : Z) :
  valid_binary (S754_finite s m e) = true ->
  Z.pos m < 2 ^ 53 /\ -1074 <= e /\ (-1074 < e -> 2 ^ 52 <= Z.pos m).
Proof.
  cbn [SpecFloat.valid_binary]. unfold bounded, canonical_mantissa, fexp, emin.
  intros H. apply andb_prop in H. destruct H as [H _]. apply Z.eqb_eq in H.
  change (3 - emax - prec) with (-1074) in H. change prec with 53 in H.
  pose proof (digits2_pos_bounds m) as [Hlo Hhi].
  assert (Hd : Z.pos (digits2_pos m) <= 53) by lia.
  split; [|split].
  - eapply Z.lt_le_trans; [exact Hhi|]. apply Z.pow_le_mono_r; lia.
  - lia.
  - intros He. assert (Z.pos (digits2_pos m) = 53) as Hd53 by lia.
    rewrite Hd53 in Hlo. exact Hlo.
Qed.

(** Comparing a float with a positive [int] that is itself a normal float
    (mantissa [mc], exponent [ec < 0]) is the comparison of the floats. *)
Lemma py_gt_float_threshold (f : float) (z : Z) (mc : positive) (ec : Z) :
  Prim2SF (Z2float z) = S754_finite false mc ec ->
  -1074 < ec < 0 -> 2 ^ 52 <= Z.pos mc < 2 ^ 53 -> z * 2 ^ (- ec) = Z.pos mc ->
  py_gt (PFloat f) (PInt z) = PrimFloat.ltb (Z2float z) f.
Proof.
  intros Hc Hec Hmc Hz.
  assert (Hk : 2 <= 2 ^ (- ec)).
  { change 2 with (2 ^ 1) at 1. apply Z.pow_le_mono_r; lia. }
  assert (H52 : 0 < 2 ^ 52) by (apply Z.pow_pos_nonneg; lia).
  assert (H53 : 2 ^ 53 = 2 * 2 ^ 52) by reflexivity.
  assert (Hzpos : 0 < z) by nia.
  assert (Hz52 : z < 2 ^ 52) by nia.
  cbn [py_gt]. unfold float_cmp_int. rewrite FloatAxioms.ltb_spec, Hc.
  pose proof (FloatAxioms.Prim2SF_valid f) as Hv.
  destruct (Prim2SF f) as [s | s | | s m e]; cbn [SFltb SFcompare].
  - destruct (0 ?= z) eqn:E; try reflexivity. rewrite Z.compare_gt_iff in E. lia.
  - destruct s; reflexivity.
  - reflexivity.
  - destruct (valid_finite_digits s m e Hv) as (Hm53 & Hemin & Hm52).
    destruct s.
    + destruct (0 <=? e) eqn:He.
      * apply Z.leb_le in He. assert (0 < 2 ^ e) by (apply Z.pow_pos_nonneg; lia).
        replace (Z.neg m * 2 ^ e ?= z) with Lt; [reflexivity|].
        symmetry. apply Z.compare_lt_iff. nia.
      * apply Z.leb_gt in He. assert (0 < 2 ^ (- e)) by (apply Z.pow_pos_nonneg; lia).
        replace (Z.neg m ?= z * 2 ^ (- e)) with Lt; [reflexivity|].
        symmetry. apply Z.compare_lt_iff. nia.
    + destruct (ec ?= e) eqn:E.
      * rewrite Z.compare_eq_iff in E. subst e.
        replace (0 <=? ec) with false by (symmetry; apply Z.leb_gt; lia).
        rewrite Hz. change (Pos.compare_cont Eq mc m) with (Z.pos mc ?= Z.pos m).
        rewrite (Z.compare_antisym (Z.pos mc) (Z.pos m)).
        destruct (Z.pos mc ?= Z.pos m); reflexivity.
      * rewrite Z.compare_lt_iff in E. specialize (Hm52 ltac:(lia)).
        destruct (0 <=? e) eqn:He.
        -- apply Z.leb_le in He. assert (0 < 2 ^ e) by (apply Z.pow_pos_nonneg; lia).
           replace (Z.pos m * 2 ^ e ?= z) with Gt; [reflexivity|].
           symmetry. apply Z.compare_gt_iff. nia.
        -- apply Z.leb_gt in He.
           assert (Hsplit : 2 ^ (- ec) = 2 ^ (- e) * 2 ^ (e - ec)).
           { rewrite <- Z.pow_add_r by lia. f_equal. lia. }
           assert (H2 : 2 <= 2 ^ (e - ec)).
           { change 2 with (2 ^ 1) at 1. apply Z.pow_le_mono_r; lia. }
           assert (0 < 2 ^ (- e)) by (apply Z.pow_pos_nonneg; lia).
           replace (Z.pos m ?= z * 2 ^ (- e)) with Gt; [reflexivity|].
           symmetry. apply Z.compare_gt_iff. nia.
      * rewrite Z.compare_gt_iff in E.
        replace (0 <=? e) with false by (symmetry; apply Z.leb_gt; lia).
        assert (Hsplit : 2 ^ (- e) = 2 ^ (- ec) * 2 ^ (ec - e)).
        { rewrite <- Z.pow_add_r by lia. f_equal. lia. }
        assert (H2 : 2 <= 2 ^ (ec - e)).
        { change 2 with (2 ^ 1) at 1. apply Z.pow_le_mono_r; lia. }
        destruct (Z.pos m ?= z * 2 ^ (- e)) eqn:C; try reflexivity.
        rewrite Z.compare_gt_iff in C. exfalso. rewrite Hsplit in C. nia.
Qed.

Ltac float_threshold mc ec :=
  apply (py_gt_float_threshold _ _ mc ec);
  [ reflexivity | lia | split; [discriminate | reflexivity] | reflexivity ].

Lemma py_gt_120 (f : float) : py_gt (PFloat f) (PInt 120) = PrimFloat.ltb 120 f.
Proof.
  replace 120%float with (Z2float 120) by (vm_compute; reflexivity).
  float_threshold (120 * 2 ^ 46)%positive (-46).
Qed.

Lemma py_gt_100 (f : float) : py_gt (PFloat f) (PInt 100) = PrimFloat.ltb 100 f.
Proof.
  replace 100%float with (Z2float 100) by (vm_compute; reflexivity).
  float_threshold (100 * 2 ^ 46)%positive (-46).
Qed.

Lemma py_gt_80 (f : float) : py_gt (PFloat f) (PInt 80) = PrimFloat.ltb 80 f.
Proof.
  replace 80%float with (Z2float 80) by (vm_compute; reflexivity).
  float_threshold (80 * 2 ^ 46)%positive (-46).
Qed.

Lemma py_gt_50 (f : float) : py_gt (PFloat f) (PInt 50) = PrimFloat.ltb 50 f.
Proof.
  replace 50%float with (Z2float 50) by (vm_compute; reflexivity).
  float_threshold (50 * 2 ^ 47)%positive (-47).
Qed.

Lemma py_gt_zero (v : pynum) (t : Z) :
  v = PInt 0 \/ v = PFloat 0 -> 0 <= t -> py_gt v (PInt t) = false.
Proof.
  intros [-> | ->] Ht; cbn [py_gt].
  - apply Z.ltb_ge. exact Ht.
  - unfold float_cmp_int. change (Prim2SF 0) with (S754_zero false). cbn beta iota.
    destruct (0 ?= t) eqn:E; try reflexivity.
    apply Z.compare_gt_iff in E. lia.
Qed.

Lemma dict_Forall {V} (P : string -> V -> Prop) (items : list (string * V)) :
  Forall (fun kv => P kv.1 kv.2) items -> map_Forall P (dict items).
Proof.
  unfold dict.
  assert (G : forall (d : gmap string V), map_Forall P d ->
            Forall (fun kv => P kv.1 kv.2) items ->
            map_Forall P (fold_left (fun d kv => <[kv.1 := kv.2]> d) items d)).
  { induction items as [|kv items IH]; intros d Hd Hi; simpl; [exact Hd|].
    inversion Hi; subst. apply IH; [|assumption].
    apply map_Forall_insert_2; assumption. }
  apply G. apply map_Forall_empty.
Qed.

Lemma get_float_valued (d : gmap string pynum) (k : string) :
  float_valued d ->
  get d k (PInt 0) = PInt 0 \/ exists f, get d k (PInt 0) = PFloat f.
Proof.
  intros Hd. unfold get. destruct (d !! k) as [v|] eqn:E; cbn [default].
  - right. exact (Hd k v E).
  - left. reflexivity.
Qed.

Lemma get_zero_valued (d : gmap string pynum) (k : string) :
  zero_valued d ->
  get d k (PInt 0) = PInt 0 \/ get d k (PInt 0) = PFloat 0.
Proof.
  intros Hd. unfold get. destruct (d !! k) as [v|] eqn:E; cbn [default].
  - exact (Hd k v E).
  - left. reflexivity.
Qed.

(* ===================================================================== *)
(** ** The tables and the calculator *)
(* ===================================================================== *)

Lemma NATIONAL_AVERAGES_usable :
  map_Forall (fun _ v => usable_average v = true) NATIONAL_AVERAGES.
Proof.
  apply dict_Forall. repeat constructor.
Qed.

Lemma world_entry : getitem NATIONAL_AVERAGES "World" = Ok (PInt 4800).
Proof. reflexivity. Qed.

Lemma national_average_usable (c : string) :
  exists z n, get NATIONAL_AVERAGES c (PInt 4800) = PInt z
    /\ int_to_float z = Ok n /\ PrimFloat.eqb n 0 = false.
Proof.
  unfold get. destruct (NATIONAL_AVERAGES !! c) as [v|] eqn:E; simpl.
  - pose proof (NATIONAL_AVERAGES_usable c v E) as U. simpl in U.
    destruct v as [z|f]; [|discriminate]. unfold usable_average in U.
    destruct (int_to_float z) as [n|e] eqn:En; [|discriminate].
    exists z, n. repeat split; try assumption.
    destruct (PrimFloat.eqb n 0); [discriminate|reflexivity].
  - exists 4800, 4800%float. repeat split; vm_compute; reflexivity.
Qed.

Lemma EMISSION_FACTORS_floats : float_valued EMISSION_FACTORS.
Proof. apply dict_Forall. repeat constructor; eexists; reflexivity. Qed.

Lemma factor_flight_short : getitem EMISSION_FACTORS "flight_short" = Ok (PFloat 0.24).
Proof. reflexivity. Qed.
Lemma factor_flight_long : getitem EMISSION_FACTORS "flight_long" = Ok (PFloat 0.18).
Proof. reflexivity. Qed.
Lemma factor_electricity : getitem EMISSION_FACTORS "electricity" = Ok (PFloat 0.233).
Proof. reflexivity. Qed.
Lemma factor_natural_gas : getitem EMISSION_FACTORS "natural_gas" = Ok (PFloat 0.184).
Proof. reflexivity. Qed.

Lemma factor_diet :
  get EMISSION_FACTORS "meat_beef" (PInt 0) = PFloat 6.0 /\
  get EMISSION_FACTORS "meat_pork" (PInt 0) = PFloat 1.7 /\
  get EMISSION_FACTORS "meat_chicken" (PInt 0) = PFloat 0.9 /\
  get EMISSION_FACTORS "vegetarian" (PInt 0) = PFloat 0.5 /\
  get EMISSION_FACTORS "vegan" (PInt 0) = PFloat 0.4.
Proof. repeat split. Qed.

Lemma transportation_run (t : string) (d : float) :
  exists f, to_float (get EMISSION_FACTORS t (PInt 0)) = Ok f
    /\ calculate_transportation_emissions t (PFloat d) = Ok (PFloat (d * f)).
Proof.
  unfold calculate_transportation_emissions.
  destruct (get_float_valued EMISSION_FACTORS t EMISSION_FACTORS_floats) as [-> | [f ->]].
  - exists 0%float. exc_simpl. rewrite int_to_float_0. split; reflexivity.
  - exists f. split; reflexivity.
Qed.

Lemma household_run (e g : float) :
  calculate_household_emissions (PFloat e) (PFloat g)
  = Ok (PFloat (e * 0.233 + g * 0.184)).
Proof.
  unfold calculate_household_emissions.
  rewrite factor_electricity, factor_natural_gas. reflexivity.
Qed.

(* ===================================================================== *)
(** ** The comparator *)
(* ===================================================================== *)

(** On a [float] percentage the bands are decided by float comparisons. *)
Lemma band_float (p : float) :
  band (PFloat p) =
    (if 120 <? p then "high"
     else if 100 <? p then "above_avg"
     else if 80 <? p then "average"
     else if 50 <? p then "below_avg"
     else "low")%float.
Proof. unfold band. rewrite py_gt_120, py_gt_100, py_gt_80, py_gt_50. reflexivity. Qed.

(** The comparator never raises on a [float] footprint, and its result is
    determined by the national average used and the percentage. *)
Lemma get_footprint_comparison_run (a : float) (c : string) :
  exists z n r,
    get NATIONAL_AVERAGES c (PInt 4800) = PInt z /\
    int_to_float z = Ok n /\
    get_footprint_comparison (PFloat a) c = Ok r /\
    country r = c /\
    national_avg r = PInt z /\
    percentage r = PFloat (a / n * 100) /\
    status r = band (percentage r) /\
    exists pre post, In (status r, (pre, post)) message_templates /\
                     message r = pre ++ c ++ post.
Proof.
  destruct (national_average_usable c) as (z & n & Hz & Hn & Hnz).
  exists z, n. unfold get_footprint_comparison.
  rewrite world_entry. exc_simpl. rewrite Hz.
  exc_simpl. rewrite Hn. exc_simpl. rewrite Hnz.
  exc_simpl. rewrite int_to_float_100. exc_simpl.
  unfold band.
  set (p := PFloat (a / n * 100)).
  destruct (py_gt p (PInt 120)) eqn:G1;
    [|destruct (py_gt p (PInt 100)) eqn:G2;
      [|destruct (py_gt p (PInt 80)) eqn:G3;
        [|destruct (py_gt p (PInt 50)) eqn:G4]]];
  eexists; (split; [reflexivity|]); (split; [reflexivity|]); (split; [reflexivity|]);
  cbn [country national_avg percentage status message];
  (split; [reflexivity|]); (split; [reflexivity|]);
  (split; [reflexivity|]);
  rewrite ?G1, ?G2, ?G3, ?G4; (split; [reflexivity|]);
  do 2 eexists; (split; [|reflexivity]); simpl; tauto.
Qed.

(** C1. For every footprint and every country the comparator returns; its
    percentage is [(annual_footprint / national_average) * 100], the
    national average being that of the country or, failing that, of
    "World"; the band is found with strict [>] tried top-down, the first
    match winning: [> 120] "high", [> 100] "above_avg", [> 80] "average",
    [> 50] "below_avg", otherwise "low". In particular a percentage of
    exactly 100 is "average". *)
Theorem comparison_band_assignment (annual_footprint : float) (c : string) :
  exists r world n p,
    get_footprint_comparison (PFloat annual_footprint) c = Ok r /\
    getitem NATIONAL_AVERAGES "World" = Ok world /\
    national_avg r = get NATIONAL_AVERAGES c world /\
    to_float (national_avg r) = Ok n /\
    p = (annual_footprint / n * 100)%float /\
    percentage r = PFloat p /\
    status r =
      (if 120 <? p then "high"
       else if 100 <? p then "above_avg"
       else if 80 <? p then "average"
       else if 50 <? p then "below_avg"
       else "low")%float /\
    (p = 100%float -> status r = "average").
Proof.
  destruct (get_footprint_comparison_run annual_footprint c)
    as (z & n & r & Hz & Hn & Hr & _ & Ha & Hp & Hs & _).
  exists r, (PInt 4800), n, (annual_footprint / n * 100)%float.
  rewrite Hs, Hp, band_float, Ha, Hz. cbn [to_float].
  repeat split; try assumption.
  intros ->. reflexivity.
Qed.

Lemma comparison_band_assignment_witness :
  exists r, get_footprint_comparison (PFloat 5200) "UK" = Ok r
    /\ percentage r = PFloat 100 /\ status r = "average".
Proof.
  destruct (comparison_band_assignment 5200 "UK")
    as (r & w & n & p & Hr & Hw & Ha & Hn & Hp & Hpr & _ & H100).
  exists r. rewrite Ha in Hn. vm_compute in Hw. injection Hw as <-.
  vm_compute in Hn. injection Hn as <-.
  change (5200 / 5200 * 100)%float with 100%float in Hp.
  rewrite Hpr, Hp. repeat split; [exact Hr | exact (H100 Hp)].
Defined.

(** The bands at 1, 1.21, 0.81, 0.51 and 0.49 times the average of the
    UK. *)
Example comparison_band_examples :
  map (fun k => status <$> (match get_footprint_comparison (PFloat (5200 * k)) "UK" with
                            | Ok r => Some r
                            | Raise _ => None
                            end))
      [1; 1.21; 0.81; 0.51; 0.49]%float
  = [Some "average"; Some "high"; Some "average"; Some "below_avg"; Some "low"].
Proof. vm_compute. reflexivity. Qed.

(** C10. For a country that is not in [NATIONAL_AVERAGES] the result still
    carries the caller's country in its [country] field and in its message
    (a template of the band around that name), while [national_avg] is the
    "World" entry and the percentage is computed from it. *)
Theorem unknown_country_reported (a : float) (c : string) :
  NATIONAL_AVERAGES !! c = None ->
  exists r,
    get_footprint_comparison (PFloat a) c = Ok r /\
    country r = c /\
    (exists pre post, In (status r, (pre, post)) message_templates /\
                      message r = pre ++ c ++ post) /\
    getitem NATIONAL_AVERAGES "World" = Ok (national_avg r) /\
    percentage r = PFloat (a / 4800 * 100).
Proof.
  intros Hc.
  destruct (get_footprint_comparison_run a c)
    as (z & n & r & Hz & Hn & Hr & Hcn & Ha & Hp & _ & Hm).
  unfold get in Hz. rewrite Hc in Hz. cbn in Hz. injection Hz as <-.
  vm_compute in Hn. injection Hn as <-.
  exists r. repeat split; try assumption.
  rewrite Ha. reflexivity.
Qed.

Lemma unknown_country_reported_witness :
  exists r,
    get_footprint_comparison (PFloat 5200) "Atlantis" = Ok r /\
    country r = "Atlantis" /\
    (exists pre post, In (status r, (pre, post)) message_templates /\
                      message r = pre ++ "Atlantis" ++ post) /\
    getitem NATIONAL_AVERAGES "World" = Ok (national_avg r) /\
    percentage r = PFloat (5200 / 4800 * 100).
Proof. apply (unknown_country_reported 5200 "Atlantis"). reflexivity. Defined.

(** C4. An unknown key raises nothing. A transport mode that is not in
    [EMISSION_FACTORS] gives the distance times 0, which is zero for every
    finite distance; a diet category that is not in the table gives the
    [int] 0; a country that is not in [NATIONAL_AVERAGES] is compared with
    the "World" average. *)
Theorem unknown_key_defaults
    (transport diet c : string) (distance annual : float) (meals : Z) :
  EMISSION_FACTORS !! transport = None ->
  EMISSION_FACTORS !! diet = None ->
  NATIONAL_AVERAGES !! c = None ->
  (calculate_transportation_emissions transport (PFloat distance) = Ok (PFloat (distance * 0))
   /\ (PrimFloat.is_finite distance = true -> PrimFloat.eqb (distance * 0) 0 = true))
  /\ calculate_food_emissions diet (PInt meals) = Ok (PInt 0)
  /\ exists r w,
       get_footprint_comparison (PFloat annual) c = Ok r /\
       get_footprint_comparison (PFloat annual) "World" = Ok w /\
       NATIONAL_AVERAGES !! "World" = Some (national_avg r) /\
       national_avg r = national_avg w /\
       percentage r = percentage w /\
       status r = status w.
Proof.
  intros Ht Hd Hc. split; [split|split].
  - unfold calculate_transportation_emissions, get. rewrite Ht. cbn [default].
    exc_simpl. rewrite int_to_float_0. reflexivity.
  - apply float_mul_zero.
  - unfold calculate_food_emissions, get. rewrite Hd. cbn [default py_mul].
    rewrite Z.mul_0_r. reflexivity.
  - destruct (get_footprint_comparison_run annual c)
      as (z & n & r & Hz & Hn & Hr & _ & Ha & Hp & Hs & _).
    destruct (get_footprint_comparison_run annual "World")
      as (z' & n' & w & Hz' & Hn' & Hw & _ & Ha' & Hp' & Hs' & _).
    unfold get in Hz. rewrite Hc in Hz. cbn in Hz. injection Hz as <-.
    vm_compute in Hz'. injection Hz' as <-.
    rewrite Hn in Hn'. injection Hn' as <-.
    exists r, w. rewrite Hs, Hs', Hp, Hp', Ha, Ha'. repeat split; assumption.
Qed.

Lemma unknown_key_defaults_witness :
  (calculate_transportation_emissions "bicycle" (PFloat 100) = Ok (PFloat (100 * 0))
   /\ PrimFloat.eqb (100 * 0) 0 = true)
  /\ calculate_food_emissions "fish" (PInt 3) = Ok (PInt 0)
  /\ exists r w,
       get_footprint_comparison (PFloat 5200) "Atlantis" = Ok r /\
       get_footprint_comparison (PFloat 5200) "World" = Ok w /\
       NATIONAL_AVERAGES !! "World" = Some (national_avg r) /\
       national_avg r = national_avg w /\
       percentage r = percentage w /\
       status r = status w.
Proof.
  destruct (unknown_key_defaults "bicycle" "fish" "Atlantis" 100 5200 3)
    as [[Ht Hz] [Hd Hc]]; try reflexivity.
  split; [split; [exact Ht | exact (Hz eq_refl)] | split; [exact Hd | exact Hc]].
Defined.

(* ===================================================================== *)
(** ** The recommendation engine *)
(* ===================================================================== *)

Lemma get_recommendations_rules (d : gmap string pynum) (meat : pynum) :
  meat_emissions d = Ok meat ->
  get_recommendations d =
    Ok (match fired d meat with [] => GENERAL_RECOMMENDATIONS | m :: ms => m :: ms end).
Proof.
  intros Hm. unfold get_recommendations. rewrite Hm. exc_simpl.
  unfold fired, rule_table, append_if. cbn [List.filter map fst snd].
  repeat match goal with
  | |- context [py_gt ?a ?b] => destruct (py_gt a b)
  end; reflexivity.
Qed.

Lemma meat_emissions_total (d : gmap string pynum) :
  float_valued d -> exists meat, meat_emissions d = Ok meat.
Proof.
  intros Hd. unfold meat_emissions.
  destruct (get_float_valued d "meat_beef" Hd) as [-> | [b ->]];
  destruct (get_float_valued d "meat_pork" Hd) as [-> | [p ->]];
  destruct (get_float_valued d "meat_chicken" Hd) as [-> | [c ->]];
  exc_simpl; rewrite ?int_to_float_0; exc_simpl; rewrite ?int_to_float_0; exc_simpl;
  eexists; reflexivity.
Qed.

Lemma meat_emissions_zero (d : gmap string pynum) :
  zero_valued d ->
  exists meat, meat_emissions d = Ok meat /\ (meat = PInt 0 \/ meat = PFloat 0).
Proof.
  intros Hd. unfold meat_emissions.
  destruct (get_zero_valued d "meat_beef" Hd) as [-> | ->];
  destruct (get_zero_valued d "meat_pork" Hd) as [-> | ->];
  destruct (get_zero_valued d "meat_chicken" Hd) as [-> | ->];
  eexists; (split; [vm_compute; reflexivity|]); auto.
Qed.

Lemma fired_zero (d : gmap string pynum) (meat : pynum) :
  zero_valued d -> meat = PInt 0 \/ meat = PFloat 0 -> fired d meat = [].
Proof.
  intros Hd Hm. unfold fired, rule_table.
  rewrite !(py_gt_zero (get d _ (PInt 0))) by (try apply get_zero_valued; try assumption; lia).
  rewrite (py_gt_zero meat) by (try assumption; lia).
  reflexivity.
Qed.

Lemma fired_or_general_nonempty (l : list string) :
  match l with [] => GENERAL_RECOMMENDATIONS | m :: ms => m :: ms end <> [].
Proof. destruct l; discriminate. Qed.

Lemma get_recommendations_total (d : gmap string pynum) :
  float_valued d -> exists recs, get_recommendations d = Ok recs.
Proof.
  intros Hd. destruct (meat_emissions_total d Hd) as [meat Hm].
  rewrite (get_recommendations_rules d meat Hm). eexists. reflexivity.
Qed.

(** C3. Whenever the engine returns, its list is not empty, and it returns
    on every mapping whose values are [float]s. When no rule fires, and in
    particular on a mapping whose values are all zero, the result is the
    list of the four general recommendations, in its order. *)
Theorem recommendations_never_empty (emissions_data : gmap string pynum) :
  (forall recs, get_recommendations emissions_data = Ok recs -> recs <> [])
  /\ (float_valued emissions_data ->
      exists recs, get_recommendations emissions_data = Ok recs /\ recs <> [])
  /\ (forall meat, meat_emissions emissions_data = Ok meat ->
      fired emissions_data meat = [] ->
      get_recommendations emissions_data = Ok GENERAL_RECOMMENDATIONS)
  /\ (zero_valued emissions_data ->
      get_recommendations emissions_data = Ok GENERAL_RECOMMENDATIONS)
  /\ length GENERAL_RECOMMENDATIONS = 4%nat.
Proof.
  repeat split.
  - intros recs Hr. destruct (meat_emissions emissions_data) as [meat|e] eqn:Hm.
    + rewrite (get_recommendations_rules _ _ Hm) in Hr. injection Hr as <-.
      apply fired_or_general_nonempty.
    + unfold get_recommendations in Hr. rewrite Hm in Hr. discriminate Hr.
  - intros Hd. destruct (meat_emissions_total _ Hd) as [meat Hm].
    rewrite (get_recommendations_rules _ _ Hm). eexists. split; [reflexivity|].
    apply fired_or_general_nonempty.
  - intros meat Hm Hf. rewrite (get_recommendations_rules _ _ Hm), Hf. reflexivity.
  - intros Hd. destruct (meat_emissions_zero _ Hd) as (meat & Hm & Hz).
    rewrite (get_recommendations_rules _ _ Hm), (fired_zero _ _ Hd Hz). reflexivity.
Qed.

Lemma recommendations_never_empty_witness :
  (exists recs,
     get_recommendations (dict [("car_petrol", PFloat 0); ("meat_beef", PFloat 0)]) = Ok recs
     /\ recs <> [])
  /\ get_recommendations (dict [("car_petrol", PFloat 0); ("meat_beef", PFloat 0)])
     = Ok GENERAL_RECOMMENDATIONS.
Proof.
  destruct (recommendations_never_empty (dict [("car_petrol", PFloat 0); ("meat_beef", PFloat 0)]))
    as (_ & Hfloat & _ & Hzero & _).
  split.
  - apply Hfloat. apply dict_Forall. repeat constructor; eexists; reflexivity.
  - apply Hzero. apply dict_Forall. repeat constructor; right; reflexivity.
Defined.

Lemma In_fired_iff (table : list (bool * string)) (b : bool) (msg : string) :
  NoDup (map snd table) -> In (b, msg) table ->
  (In msg (map snd (List.filter fst table)) <-> b = true).
Proof.
  induction table as [|[b' msg'] table IH]; intros Hnd Hin; [destruct Hin|].
  cbn [map snd] in Hnd. apply NoDup_cons in Hnd. destruct Hnd as [Hnotin Hnd].
  rewrite list_elem_of_In in Hnotin.
  destruct Hin as [Heq | Hin].
  - injection Heq as -> ->. cbn [List.filter fst]. destruct b; cbn [map snd].
    + split; [reflexivity | intros _; left; reflexivity].
    + split; [|discriminate]. intros Hin. exfalso. apply Hnotin.
      apply in_map_iff in Hin. destruct Hin as ([b0 m0] & Hm & Hin).
      apply filter_In in Hin. destruct Hin as [Hin _]. cbn in Hm. subst m0.
      apply in_map_iff. exists (b0, msg). split; [reflexivity | exact Hin].
  - assert (Hne : msg' <> msg).
    { intros ->. apply Hnotin. apply in_map_iff. exists (b, msg). split; [reflexivity|exact Hin]. }
    specialize (IH Hnd Hin). cbn [List.filter fst]. destruct b'; cbn [map snd].
    + rewrite <- IH. split; [intros [H|H]; [contradiction|exact H] | intros H; right; exact H].
    + exact IH.
Qed.

Lemma rule_messages (d : gmap string pynum) (meat : pynum) :
  map snd (rule_table d meat)
  = [REC_DRIVING; REC_FLIGHTS; REC_ELECTRICITY; REC_GAS; REC_BEEF; REC_MEAT_FREE].
Proof. reflexivity. Qed.

Lemma rule_messages_NoDup :
  NoDup [REC_DRIVING; REC_FLIGHTS; REC_ELECTRICITY; REC_GAS; REC_BEEF; REC_MEAT_FREE].
Proof. apply (bool_decide_unpack _). vm_compute. exact I. Qed.

(** C7. The six rules are evaluated independently and in the order of
    [rule_table], with the thresholds written there: the result is the list
    of the messages of the rules whose threshold holds, in that order (the
    general list when there is none), and a rule's message is among the
    fired ones exactly when its threshold holds. *)
Theorem recommendation_rules_in_order (emissions_data : gmap string pynum) (meat : pynum) :
  meat_emissions emissions_data = Ok meat ->
  get_recommendations emissions_data =
    Ok (match fired emissions_data meat with
        | [] => GENERAL_RECOMMENDATIONS
        | m :: ms => m :: ms
        end)
  /\ forall holds msg, In (holds, msg) (rule_table emissions_data meat) ->
       (In msg (fired emissions_data meat) <-> holds = true).
Proof.
  intros Hm. split.
  - apply get_recommendations_rules. exact Hm.
  - intros holds msg Hin. apply In_fired_iff; [|exact Hin].
    rewrite rule_messages. exact rule_messages_NoDup.
Qed.

Lemma recommendation_rules_in_order_witness :
  get_recommendations
    (dict [("car_petrol", PFloat 31); ("meat_beef", PFloat 18); ("meat_chicken", PFloat 2.5)])
  = Ok [REC_DRIVING; REC_BEEF; REC_MEAT_FREE].
Proof.
  exact (proj1 (recommendation_rules_in_order
    (dict [("car_petrol", PFloat 31); ("meat_beef", PFloat 18); ("meat_chicken", PFloat 2.5)])
    (PFloat 20.5) eq_refl)).
Defined.

(** None, one or all of the rules may fire. *)
Example rules_fire_none_one_all :
  get_recommendations ∅ = Ok GENERAL_RECOMMENDATIONS /\
  get_recommendations (dict [("electricity", PFloat 40.5)]) = Ok [REC_ELECTRICITY] /\
  get_recommendations
    (dict [("car_diesel", PFloat 31); ("flight_long", PFloat 101); ("electricity", PFloat 41);
           ("natural_gas", PFloat 31); ("meat_beef", PFloat 18); ("meat_pork", PFloat 3.4)])
  = Ok [REC_DRIVING; REC_FLIGHTS; REC_ELECTRICITY; REC_GAS; REC_BEEF; REC_MEAT_FREE].
Proof. repeat split; vm_compute; reflexivity. Qed.

(* ===================================================================== *)
(** ** The export formatter *)
(* ===================================================================== *)

Lemma breakdown_rows (items : list (string * pynum)) (rows : list Row) :
  fold_left
    (fun (rows : list Row) '(category, value) =>
       (rows ++ [{| Category := category; Timeframe := "Weekly"; Emissions := value |}])%list)
    items rows
  = (rows ++ map weekly_row items)%list.
Proof.
  revert rows. induction items as [|[category value] items IH]; intros rows; cbn [fold_left map].
  - rewrite app_nil_r. reflexivity.
  - rewrite IH, <- app_assoc. reflexivity.
Qed.

(** C6. The rows of the export are, in this order: one "Weekly" row per
    item of the breakdown, the weekly total, the annual total, and the
    national average with timeframe "Annual". Their number is that of the
    breakdown categories plus 3. *)
Theorem export_rows_in_order (data : Results) :
  format_emissions_for_download data =
    (map weekly_row (weekly_breakdown data) ++
     [ {| Category := "Total"; Timeframe := "Weekly"; Emissions := weekly_total data |};
       {| Category := "Total"; Timeframe := "Annual"; Emissions := annual_total data |};
       {| Category := "National Average"; Timeframe := "Annual";
          Emissions := national_avg (comparison data) |} ])%list
  /\ length (format_emissions_for_download data)
     = (length (weekly_breakdown data) + 3)%nat.
Proof.
  assert (E : format_emissions_for_download data =
    (map weekly_row (weekly_breakdown data) ++
     [ {| Category := "Total"; Timeframe := "Weekly"; Emissions := weekly_total data |};
       {| Category := "Total"; Timeframe := "Annual"; Emissions := annual_total data |};
       {| Category := "National Average"; Timeframe := "Annual";
          Emissions := national_avg (comparison data) |} ])%list).
  { unfold format_emissions_for_download. rewrite breakdown_rows.
    cbn [app]. rewrite <- !app_assoc. reflexivity. }
  split; [exact E|].
  rewrite E, length_app, length_map. reflexivity.
Qed.

(* ===================================================================== *)
(** ** The submit handler *)
(* ===================================================================== *)

Lemma diet_inputs_items (i : CalculationInput) :
  diet_inputs i = [
    ("meat_beef", diet_answers i "meat_beef");
    ("meat_pork", diet_answers i "meat_pork");
    ("meat_chicken", diet_answers i "meat_chicken");
    ("vegetarian", diet_answers i "vegetarian");
    ("vegan", diet_answers i "vegan") ].
Proof. reflexivity. Qed.

Ltac diet_step i key :=
  destruct (fits_float (diet_answers i key)); cbn [mbind exc_bind];
  [ | split; [discriminate | intros [H _]; exfalso; intuition discriminate] ].

Lemma diet_loop_run (i : CalculationInput) (des : list (string * pynum)) :
  diet_loop (diet_inputs i) [] = Ok des <->
  Forall (fun item => fits_float item.2 = true) (diet_inputs i) /\ des = diet_floats i.
Proof.
  rewrite diet_inputs_items. cbn [diet_loop]. unfold calculate_food_emissions.
  destruct factor_diet as (-> & -> & -> & -> & ->).
  rewrite !Forall_cons, Forall_nil. cbn [snd]. unfold diet_floats.
  cbn [py_mul to_float mbind exc_bind]. unfold int_to_float.
  diet_step i "meat_beef". diet_step i "meat_pork". diet_step i "meat_chicken".
  diet_step i "vegetarian". diet_step i "vegan".
  cbn. split.
  - intros H. injection H as <-. tauto.
  - intros [_ ->]. reflexivity.
Qed.

Lemma py_sum_diet_floats (i : CalculationInput) :
  exists td, py_sum (map snd (diet_floats i)) = Ok (PFloat td).
Proof.
  unfold py_sum, diet_floats. cbn [map snd fold_left].
  exc_simpl. rewrite int_to_float_0. exc_simpl. eexists. reflexivity.
Qed.

Lemma detailed_emissions_floats (t : string) (te fs fl el gas : float) (i : CalculationInput) :
  float_valued (dict ([(t, PFloat te); ("flight_short", PFloat fs); ("flight_long", PFloat fl);
                       ("electricity", PFloat el); ("natural_gas", PFloat gas)]
                      ++ diet_floats i)%list).
Proof. apply dict_Forall. unfold diet_floats. repeat constructor; eexists; reflexivity. Qed.

(** What the handler computes when the input converts. *)
Lemma on_submit_run (i : CalculationInput) :
  convertible i ->
  exists f te td cmp recs,
    to_float (get EMISSION_FACTORS (transport_type i) (PInt 0)) = Ok f /\
    te = (weekly_distance i * f)%float /\
    py_sum (map snd (diet_floats i)) = Ok (PFloat td) /\
    let fs := flight_weekly (short_flights i) 1000 0.24 in
    let fl := flight_weekly (long_flights i) 6000 0.18 in
    let h := household_weekly (electricity_kwh i) (gas_kwh i) in
    let w := (te + fs + fl + h + td)%float in
    on_submit i = Ok {|
      weekly_total := PFloat w;
      annual_total := PFloat (w * 52);
      weekly_breakdown := [
        ("Transportation", PFloat te);
        ("Short Flights", PFloat fs);
        ("Long Flights", PFloat fl);
        ("Household Energy", PFloat h);
        ("Diet", PFloat td) ];
      comparison := cmp;
      recommendations := recs |}.
Proof.
  intros (Hs & Hl & Hd).
  destruct (transportation_run (transport_type i) (weekly_distance i)) as (f & Hf & Ht).
  destruct (py_sum_diet_floats i) as [td Htd].
  set (te := (weekly_distance i * f)%float) in *.
  set (fs := flight_weekly (short_flights i) 1000 0.24).
  set (fl := flight_weekly (long_flights i) 6000 0.18).
  set (h := household_weekly (electricity_kwh i) (gas_kwh i)).
  set (w := (te + fs + fl + h + td)%float).
  destruct (get_footprint_comparison_run (w * 52) (country_choice i))
    as (z & n & cmp & _ & _ & Hcmp & _).
  destruct (get_recommendations_total _
              (detailed_emissions_floats (transport_type i) te fs fl
                 (electricity_kwh i * 0.233) (gas_kwh i * 0.184) i)) as [recs Hrecs].
  exists f, te, td, cmp, recs. split; [exact Hf|]. split; [reflexivity|]. split; [exact Htd|].
  cbv zeta. unfold on_submit.
  rewrite Ht. cbn [mbind exc_bind].
  unfold short_flight_distance, long_flight_distance.
  rewrite factor_flight_short, factor_flight_long.
  cbn [py_mul to_float mbind exc_bind].
  rewrite (int_to_float_fits _ Hs), (int_to_float_fits _ Hl).
  cbn [py_truediv to_float mbind exc_bind].
  rewrite int_to_float_52. cbn [mbind exc_bind]. rewrite float_52_nonzero.
  cbn [mbind exc_bind].
  rewrite household_run. cbn [mbind exc_bind].
  rewrite (proj2 (diet_loop_run i (diet_floats i)) (conj Hd eq_refl)). cbn [mbind exc_bind].
  rewrite Htd. cbn [py_add py_mul to_float mbind exc_bind].
  rewrite int_to_float_52. cbn [mbind exc_bind].
  rewrite factor_electricity, factor_natural_gas. cbn [py_mul to_float mbind exc_bind].
  fold fs fl h te w. unfold flight_weekly in fs, fl. unfold household_weekly in h.
  fold fs fl h. fold w.
  rewrite Hcmp. cbn [mbind exc_bind]. rewrite Hrecs. reflexivity.
Qed.

Lemma on_submit_convertible (i : CalculationInput) (r : Results) :
  on_submit i = Ok r -> convertible i.
Proof.
  unfold on_submit, short_flight_distance, long_flight_distance. intros H.
  rewrite factor_flight_short, factor_flight_long in H.
  apply bind_Ok_inv in H. destruct H as (te & _ & H).
  cbn [py_mul to_float mbind exc_bind] in H.
  apply bind_Ok_inv in H. destruct H as (sy & Hsy & H).
  apply bind_Ok_inv in Hsy. destruct Hsy as (cs & Hcs & _).
  apply int_to_float_Ok in Hcs. destruct Hcs as [Hs _].
  apply bind_Ok_inv in H. destruct H as (fs & _ & H).
  apply bind_Ok_inv in H. destruct H as (ly & Hly & H).
  apply bind_Ok_inv in Hly. destruct Hly as (cl & Hcl & _).
  apply int_to_float_Ok in Hcl. destruct Hcl as [Hl _].
  apply bind_Ok_inv in H. destruct H as (fl & _ & H).
  apply bind_Ok_inv in H. destruct H as (h & _ & H).
  apply bind_Ok_inv in H. destruct H as (des & Hdes & _).
  apply diet_loop_run in Hdes. destruct Hdes as [Hd _].
  repeat split; assumption.
Qed.

(** The handler returns exactly on the inputs that convert. *)
Lemma on_submit_returns_iff (i : CalculationInput) :
  (exists r, on_submit i = Ok r) <-> convertible i.
Proof.
  split.
  - intros [r Hr]. exact (on_submit_convertible i r Hr).
  - intros Hc. destruct (on_submit_run i Hc) as (f & te & td & cmp & recs & _ & _ & _ & Hr).
    eexists. exact Hr.
Qed.

Lemma scenario_convertible (c : string) : convertible (scenario c).
Proof. repeat split. rewrite diet_inputs_items. repeat constructor. Qed.

(** C2. The handler returns on every input that converts, and whenever it
    returns, the breakdown has the five categories, [weekly_total] is the
    sum of their values and [annual_total] is [weekly_total * 52]; no
    rounding step is applied in between. *)
Theorem weekly_and_annual_totals (i : CalculationInput) :
  (convertible i -> exists r, on_submit i = Ok r) /\
  forall r, on_submit i = Ok r ->
    map fst (weekly_breakdown r)
      = ["Transportation"; "Short Flights"; "Long Flights"; "Household Energy"; "Diet"] /\
    sum_in_order (map snd (weekly_breakdown r)) = Ok (weekly_total r) /\
    py_mul (weekly_total r) (PInt 52) = Ok (annual_total r).
Proof.
  split.
  - intros Hc. destruct (on_submit_run i Hc) as (f & te & td & cmp & recs & _ & _ & _ & Hr).
    eexists. exact Hr.
  - intros r Hr. pose proof (on_submit_convertible i r Hr) as Hc.
    destruct (on_submit_run i Hc) as (f & te & td & cmp & recs & _ & _ & _ & Hr').
    cbv zeta in Hr'. rewrite Hr' in Hr. injection Hr as <-.
    cbn [weekly_breakdown weekly_total annual_total map fst snd].
    split; [reflexivity|]. split; [reflexivity|].
    cbn [py_mul to_float mbind exc_bind]. rewrite int_to_float_52. reflexivity.
Qed.

Lemma weekly_and_annual_totals_witness :
  exists r, on_submit (scenario "UK") = Ok r /\
    sum_in_order (map snd (weekly_breakdown r)) = Ok (weekly_total r) /\
    py_mul (weekly_total r) (PInt 52) = Ok (annual_total r).
Proof.
  destruct (weekly_and_annual_totals (scenario "UK")) as [Hex Hall].
  destruct (Hex (scenario_convertible "UK")) as [r Hr].
  exists r. split; [exact Hr|]. exact (proj2 (Hall r Hr)).
Defined.

(** C5. Whenever the handler returns, the weekly short-flight emissions
    are [(short_flights * 1000 * 0.24) / 52] and the weekly long-flight
    emissions are [(long_flights * 6000 * 0.18) / 52]; for 52 short flights
    a year the former is exactly 240.0. *)
Theorem flight_amortization (i : CalculationInput) :
  (convertible i -> exists r, on_submit i = Ok r) /\
  forall r, on_submit i = Ok r ->
    exists short_km long_km,
      int_to_float (short_flights i * 1000) = Ok short_km /\
      int_to_float (long_flights i * 6000) = Ok long_km /\
      dict (weekly_breakdown r) !! "Short Flights" = Some (PFloat (short_km * 0.24 / 52)) /\
      dict (weekly_breakdown r) !! "Long Flights" = Some (PFloat (long_km * 0.18 / 52)) /\
      (short_flights i = 52 ->
       dict (weekly_breakdown r) !! "Short Flights" = Some (PFloat 240.0)).
Proof.
  split.
  - intros Hc. destruct (on_submit_run i Hc) as (f & te & td & cmp & recs & _ & _ & _ & Hr).
    eexists. exact Hr.
  - intros r Hr. pose proof (on_submit_convertible i r Hr) as Hc.
    destruct (on_submit_run i Hc) as (f & te & td & cmp & recs & _ & _ & _ & Hr').
    cbv zeta in Hr'. rewrite Hr' in Hr. injection Hr as <-.
    destruct Hc as (Hs & Hl & _).
    exists (Z2float (short_flights i * 1000)), (Z2float (long_flights i * 6000)).
    split; [apply int_to_float_fits; exact Hs|].
    split; [apply int_to_float_fits; exact Hl|].
    cbn [weekly_breakdown]. unfold flight_weekly.
    split; [reflexivity|]. split; [reflexivity|].
    intros ->. reflexivity.
Qed.

Lemma flight_amortization_witness :
  exists r, on_submit fifty_two_short_flights = Ok r /\
    dict (weekly_breakdown r) !! "Short Flights" = Some (PFloat 240.0).
Proof.
  destruct (flight_amortization fifty_two_short_flights) as [Hex Hall].
  assert (Hc : convertible fifty_two_short_flights).
  { repeat split. rewrite diet_inputs_items. repeat constructor. }
  destruct (Hex Hc) as [r Hr]. exists r. split; [exact Hr|].
  destruct (Hall r Hr) as (a & b & _ & _ & _ & _ & H52). exact (H52 eq_refl).
Defined.

(** C8. In the end-to-end scenario the handler returns, for any country
    chosen, transport 21.0, no flight emissions, household 23.3, diet
    12.0, a weekly total of 56.3 and an annual total of 2927.6. *)
Theorem end_to_end_scenario (c : string) :
  exists r, on_submit (scenario c) = Ok r /\
    weekly_breakdown r = [
      ("Transportation", PFloat 21.0);
      ("Short Flights", PFloat 0);
      ("Long Flights", PFloat 0);
      ("Household Energy", PFloat 23.3);
      ("Diet", PFloat 12.0) ] /\
    weekly_total r = PFloat 56.3 /\
    annual_total r = PFloat 2927.6.
Proof.
  destruct (on_submit_run (scenario c) (scenario_convertible c))
    as (f & te & td & cmp & recs & Hf & Hte & Htd & Hr).
  vm_compute in Hf. injection Hf as <-.
  vm_compute in Htd. injection Htd as <-.
  vm_compute in Hte. subst te.
  eexists. split; [exact Hr|]. cbn [weekly_breakdown weekly_total annual_total].
  repeat split.
Qed.

(** On the bundle of the handler the export has eight rows. *)
Lemma export_rows_of_handler (i : CalculationInput) (r : Results) :
  on_submit i = Ok r -> length (format_emissions_for_download r) = 8%nat.
Proof.
  intros Hr. pose proof (on_submit_convertible i r Hr) as Hc.
  destruct (on_submit_run i Hc) as (f & te & td & cmp & recs & _ & _ & _ & Hr').
  cbv zeta in Hr'. rewrite Hr' in Hr. injection Hr as <-. reflexivity.
Qed.

(* ===================================================================== *)
(** ** The persistence gateway *)
(* ===================================================================== *)

Lemma find_by_id_Some (t : Database.Table) (x : Z) (r : Database.CarbonFootprint) :
  List.find (fun r => Database.id r =? x) t = Some r -> In r t /\ Database.id r = x.
Proof.
  intros H. apply find_some in H. destruct H as [Hin Hid].
  split; [exact Hin | apply Z.eqb_eq; exact Hid].
Qed.

Lemma find_by_id_None (t : Database.Table) (x : Z) :
  List.find (fun r => Database.id r =? x) t = None ->
  forall r, In r t -> Database.id r <> x.
Proof.
  intros H r Hin Hid. pose proof (find_none _ _ H r Hin) as Hf.
  cbn beta in Hf. apply Z.eqb_neq in Hf. contradiction.
Qed.

Lemma filter_other_ids_length (t : Database.Table) (x : Z) :
  Database.primary_key t -> (exists r, In r t /\ Database.id r = x) ->
  S (length (List.filter (fun r => negb (Database.id r =? x)) t)) = length t.
Proof.
  unfold Database.primary_key.
  induction t as [|r0 t IH]; intros Hpk (r & Hin & Hid); [destruct Hin|].
  cbn [map] in Hpk. apply NoDup_cons in Hpk. destruct Hpk as [Hnotin Hpk].
  cbn [List.filter length]. destruct (Database.id r0 =? x) eqn:E; cbn [negb].
  - apply Z.eqb_eq in E.
    assert (Hall : forallb (fun r => negb (Database.id r =? x)) t = true).
    { apply forallb_forall. intros r' Hr'. apply negb_true_iff, Z.eqb_neq. intros Hx.
      apply Hnotin. rewrite list_elem_of_In. apply in_map_iff. exists r'.
      split; [congruence | exact Hr']. }
    rewrite (forallb_filter_id _ t Hall). reflexivity.
  - cbn [length]. apply Z.eqb_neq in E. destruct Hin as [-> | Hin]; [contradiction|].
    rewrite <- (IH Hpk); [reflexivity|]. exists r. split; assumption.
Qed.

Lemma filter_primary_key (f : Database.CarbonFootprint -> bool) (t : Database.Table) :
  Database.primary_key t -> Database.primary_key (List.filter f t).
Proof.
  unfold Database.primary_key. induction t as [|r t IH]; intros Hpk; [exact Hpk|].
  cbn [map] in Hpk. apply NoDup_cons in Hpk. destruct Hpk as [Hnotin Hpk].
  cbn [List.filter]. destruct (f r); [|exact (IH Hpk)].
  cbn [map]. apply NoDup_cons. split; [|exact (IH Hpk)].
  intros Hin. apply Hnotin. rewrite list_elem_of_In in *.
  apply in_map_iff in Hin. destruct Hin as (r' & Hid & Hin).
  apply filter_In in Hin. apply in_map_iff. exists r'. split; [exact Hid | apply Hin].
Qed.

Lemma delete_footprint_found (x : Z) (t : Database.Table) (r : Database.CarbonFootprint) :
  List.find (fun r => Database.id r =? x) t = Some r ->
  Database.delete_footprint Database.reliable x t
  = (Database.Returned true, List.filter (fun r => negb (Database.id r =? x)) t).
Proof.
  intros Hf. unfold Database.delete_footprint, Database.query_first_by_id.
  cbn [Database.select_ok Database.reliable Database.Session Database.table].
  rewrite Hf. unfold Database.commit, Database.delete, Database.close.
  cbn [Database.commit_ok Database.reliable Database.table Database.pending app existsb].
  destruct (find_by_id_Some _ _ _ Hf) as [_ ->].
  f_equal. apply filter_ext. intros a.
  cbn [Database.pending Database.Session app existsb]. rewrite orb_false_r. reflexivity.
Qed.

Lemma delete_footprint_missing (x : Z) (t : Database.Table) :
  List.find (fun r => Database.id r =? x) t = None ->
  Database.delete_footprint Database.reliable x t = (Database.Returned false, t).
Proof.
  intros Hf. unfold Database.delete_footprint, Database.query_first_by_id.
  cbn [Database.select_ok Database.reliable Database.Session Database.table].
  rewrite Hf. reflexivity.
Qed.

(** When the call raises, the table is as it was. *)
Lemma delete_footprint_raises (b : Database.Backend) (x : Z) (t : Database.Table)
    (e : Database.db_error) :
  (Database.delete_footprint b x t).1 = Database.Raised e ->
  (Database.delete_footprint b x t).2 = t.
Proof.
  unfold Database.delete_footprint, Database.query_first_by_id, Database.commit.
  destruct (Database.select_ok b); [|reflexivity].
  destruct (List.find _ _) as [r|]; [|reflexivity].
  destruct (Database.commit_ok b); [discriminate | reflexivity].
Qed.

(** C9. On a table that respects its primary key and a backend that does
    not fail, [delete_footprint] returns a boolean: [True] exactly when a
    row with the identifier exists, and then that row, and only it, has
    left the table; [False] otherwise, and then the table is unchanged. *)
Theorem delete_footprint_returns (footprint_id : Z) (t : Database.Table) :
  Database.primary_key t ->
  let result := (Database.delete_footprint Database.reliable footprint_id t).1 in
  let t' := (Database.delete_footprint Database.reliable footprint_id t).2 in
  (result = Database.Returned true \/ result = Database.Returned false)
  /\ (result = Database.Returned true <-> exists r, In r t /\ Database.id r = footprint_id)
  /\ (result = Database.Returned true ->
        t' = List.filter (fun r => negb (Database.id r =? footprint_id)) t
        /\ (forall r, In r t' <-> In r t /\ Database.id r <> footprint_id)
        /\ S (length t') = length t
        /\ Database.primary_key t')
  /\ (result = Database.Returned false -> t' = t).
Proof.
  intros Hpk result t'. subst result t'.
  destruct (List.find (fun r => Database.id r =? footprint_id) t) as [r|] eqn:Hf.
  - rewrite (delete_footprint_found _ _ _ Hf). cbn [fst snd].
    destruct (find_by_id_Some _ _ _ Hf) as [Hin Hid].
    assert (Hex : exists r, In r t /\ Database.id r = footprint_id) by (exists r; auto).
    split; [left; reflexivity|]. split; [tauto|]. split; [|discriminate].
    intros _. split; [reflexivity|]. split; [|split].
    + intros r'. rewrite filter_In, negb_true_iff, Z.eqb_neq. reflexivity.
    + apply filter_other_ids_length; assumption.
    + apply filter_primary_key. exact Hpk.
  - rewrite (delete_footprint_missing _ _ Hf). cbn [fst snd].
    split; [right; reflexivity|]. split; [|split; [discriminate | reflexivity]].
    split; [discriminate|]. intros (r & Hin & Hid).
    exfalso. exact (find_by_id_None _ _ Hf r Hin Hid).
Qed.

Lemma delete_footprint_returns_witness :
  (Database.delete_footprint Database.reliable 2 [sample_footprint 1; sample_footprint 2]).2
  = [sample_footprint 1]
  /\ (Database.delete_footprint Database.reliable 7 [sample_footprint 1; sample_footprint 2]).2
     = [sample_footprint 1; sample_footprint 2].
Proof.
  assert (Hpk : Database.primary_key [sample_footprint 1; sample_footprint 2]).
  { unfold Database.primary_key. cbn [map sample_footprint Database.id].
    apply NoDup_cons. split; [|apply NoDup_singleton].
    rewrite list_elem_of_In. intros [H|[]]. discriminate H. }
  split.
  - destruct (delete_footprint_returns 2 _ Hpk) as (_ & _ & Htrue & _).
    destruct (Htrue eq_refl) as [-> _]. reflexivity.
  - destruct (delete_footprint_returns 7 _ Hpk) as (_ & _ & _ & Hfalse).
    exact (Hfalse eq_refl).
Defined.

(* ===================================================================== *)
(** ** More on the comparator and the recommendation engine *)
(* ===================================================================== *)

(** X1. For every footprint and country the comparator names the country
    it was given, uses the country's own average when the table has it,
    puts the result in one of the five bands, and words the message with
    the template of that band around the country's name. *)
Theorem comparison_message_matches_status (annual_footprint : float) (c : string) :
  exists r,
    get_footprint_comparison (PFloat annual_footprint) c = Ok r /\
    country r = c /\
    (forall v, NATIONAL_AVERAGES !! c = Some v -> national_avg r = v) /\
    In (status r) BANDS /\
    NoDup (map fst message_templates) /\
    exists pre post,
      In (status r, (pre, post)) message_templates /\ message r = pre ++ c ++ post.
Proof.
  destruct (get_footprint_comparison_run annual_footprint c)
    as (z & n & r & Hz & Hn & Hr & Hc & Ha & Hp & Hs & Hm).
  exists r. split; [exact Hr|]. split; [exact Hc|]. split; [|split; [|split]].
  - intros v Hv. unfold get in Hz. rewrite Hv in Hz. cbn in Hz. congruence.
  - rewrite Hs. unfold band, BANDS. cbn [In].
    repeat match goal with |- context [py_gt ?a ?b] => destruct (py_gt a b) end; tauto.
  - apply (bool_decide_unpack _). vm_compute. exact I.
  - exact Hm.
Qed.

Lemma NATIONAL_AVERAGES_ratio :
  map_Forall (fun _ v => exists n, to_float v = Ok n /\ (n / n * 100)%float = 100%float)
             NATIONAL_AVERAGES.
Proof. apply dict_Forall. repeat constructor; eexists; split; vm_compute; reflexivity. Qed.

(** X2. A footprint equal to the national average it is compared with is
    at exactly 100 percent and in the band "average", for every country,
    known or not. *)
Theorem average_footprint_is_average (c : string) (n : float) :
  to_float (get NATIONAL_AVERAGES c (PInt 4800)) = Ok n ->
  exists r,
    get_footprint_comparison (PFloat n) c = Ok r /\
    percentage r = PFloat 100 /\
    status r = "average".
Proof.
  intros Hn.
  destruct (get_footprint_comparison_run n c)
    as (z & n' & r & Hz & Hn' & Hr & _ & _ & Hp & Hs & _).
  rewrite Hz in Hn. cbn [to_float] in Hn. rewrite Hn' in Hn. injection Hn as ->.
  assert (Hratio : (n / n * 100)%float = 100%float).
  { unfold get in Hz. destruct (NATIONAL_AVERAGES !! c) as [v|] eqn:E; cbn in Hz.
    - destruct (NATIONAL_AVERAGES_ratio c v E) as (m & Hm & Hmm).
      subst v. cbn [to_float] in Hm. rewrite Hn' in Hm. injection Hm as <-. exact Hmm.
    - injection Hz as <-. vm_compute in Hn'. injection Hn' as <-. reflexivity. }
  exists r. split; [exact Hr|]. rewrite Hs, Hp, Hratio. split; reflexivity.
Qed.

Lemma average_footprint_is_average_witness :
  exists r,
    get_footprint_comparison (PFloat 16000) "USA" = Ok r /\
    percentage r = PFloat 100 /\
    status r = "average".
Proof. apply (average_footprint_is_average "USA" 16000). reflexivity. Defined.

Lemma fired_sublist (table : list (bool * string)) :
  sublist (map snd (List.filter fst table)) (map snd table).
Proof.
  induction table as [|[b m] table IH]; [constructor|].
  cbn [List.filter fst]. destruct b; cbn [map snd].
  - apply sublist_skip. exact IH.
  - apply sublist_cons. exact IH.
Qed.

(** X3. What the engine returns is either the general list as a whole or
    a non-empty selection of the six rule messages in their order: never
    more than six entries, none twice, and never a general recommendation
    beside one of a rule. *)
Theorem recommendations_shape (emissions_data : gmap string pynum) (recs : list string) :
  get_recommendations emissions_data = Ok recs ->
  (recs = GENERAL_RECOMMENDATIONS \/ (recs <> [] /\ sublist recs RULE_MESSAGES))
  /\ (length recs <= 6)%nat
  /\ NoDup recs
  /\ (forall m, In m recs -> In m GENERAL_RECOMMENDATIONS -> recs = GENERAL_RECOMMENDATIONS).
Proof.
  intros Hr. destruct (meat_emissions emissions_data) as [meat|e] eqn:Hm;
    [|unfold get_recommendations in Hr; rewrite Hm in Hr; discriminate Hr].
  rewrite (get_recommendations_rules _ _ Hm) in Hr. injection Hr as <-.
  pose proof (fired_sublist (rule_table emissions_data meat)) as Hsub.
  rewrite rule_messages in Hsub. fold (fired emissions_data meat) in Hsub.
  fold RULE_MESSAGES in Hsub.
  destruct (fired emissions_data meat) as [|m ms] eqn:Hf.
  - split; [left; reflexivity|]. split; [cbn; lia|]. split; [|reflexivity].
    apply (bool_decide_unpack _). vm_compute. exact I.
  - split; [right; split; [discriminate | exact Hsub]|]. split; [|split].
    + apply sublist_length in Hsub. exact Hsub.
    + eapply sublist_NoDup; [|exact Hsub]. exact rule_messages_NoDup.
    + intros g Hg Hgen. exfalso.
      assert (Hrule : In g RULE_MESSAGES).
      { rewrite <- list_elem_of_In. eapply elem_of_sublist; [|exact Hsub].
        rewrite list_elem_of_In. exact Hg. }
      revert Hrule Hgen. unfold RULE_MESSAGES, GENERAL_RECOMMENDATIONS. cbn [In].
      intros [<-|[<-|[<-|[<-|[<-|[<-|[]]]]]]] [H|[H|[H|[H|[]]]]]; discriminate H.
Qed.

Lemma recommendations_shape_witness :
  sublist [REC_DRIVING; REC_BEEF; REC_MEAT_FREE] RULE_MESSAGES.
Proof.
  destruct (recommendations_shape
    (dict [("car_petrol", PFloat 31); ("meat_beef", PFloat 18); ("meat_chicken", PFloat 2.5)])
    [REC_DRIVING; REC_BEEF; REC_MEAT_FREE] eq_refl) as ([H | [_ H]] & _).
  - discriminate H.
  - exact H.
Defined.

Lemma SFcompare_refl (x : spec_float) : x <> S754_nan -> SFcompare x x = Some Eq.
Proof.
  destruct x as [s | s | | s m e]; intros Hx; try congruence; cbn [SFcompare].
  - reflexivity.
  - destruct s; reflexivity.
  - rewrite Z.compare_refl, Pos.compare_cont_refl. destruct s; reflexivity.
Qed.

(** Adding zero to a float that is a number gives an equal float. *)
Lemma float_add_zero (x : float) :
  PrimFloat.is_nan x = false -> PrimFloat.eqb (x + 0) x = true.
Proof.
  unfold PrimFloat.is_nan. rewrite !FloatAxioms.eqb_spec, FloatAxioms.add_spec.
  change (Prim2SF 0) with (S754_zero false). unfold SFeqb.
  destruct (Prim2SF x) as [s | s | | s m e] eqn:E; intros Hx.
  - destruct s; reflexivity.
  - destruct s; reflexivity.
  - discriminate Hx.
  - cbn [SF64add SFadd]. rewrite SFcompare_refl by discriminate. reflexivity.
Qed.

(** X4. Without a gas reading the household emissions are those of the
    electricity alone: the call returns the electricity times 0.233 plus a
    zero term, as it does for a gas reading of 0.0, and that is equal to the
    electricity term whenever this one is a number. *)
Theorem household_without_gas (electricity_kwh : float) :
  exists x,
    calculate_household_emissions_default (PFloat electricity_kwh) = Ok (PFloat x) /\
    calculate_household_emissions (PFloat electricity_kwh) (PFloat 0) = Ok (PFloat x) /\
    x = (electricity_kwh * 0.233 + 0)%float /\
    (PrimFloat.is_nan (electricity_kwh * 0.233) = false ->
     PrimFloat.eqb x (electricity_kwh * 0.233) = true).
Proof.
  exists (electricity_kwh * 0.233 + 0)%float.
  unfold calculate_household_emissions_default, calculate_household_emissions.
  rewrite factor_electricity, factor_natural_gas.
  cbn [py_mul py_add to_float mbind exc_bind]. rewrite int_to_float_0.
  cbn [mbind exc_bind]. change (0 * 0.184)%float with 0%float.
  repeat split. apply float_add_zero.
Qed.

Lemma household_without_gas_witness :
  exists x,
    calculate_household_emissions_default (PFloat 100) = Ok (PFloat x) /\
    PrimFloat.eqb x (100 * 0.233) = true.
Proof.
  destruct (household_without_gas 100) as (x & Hx & _ & _ & Heq).
  exists x. split; [exact Hx | exact (Heq eq_refl)].
Defined.

(* ===================================================================== *)
(** ** More on the submit handler *)
(* ===================================================================== *)

(** The handler up to its last two calls, on an input that converts. *)
Lemma on_submit_steps (i : CalculationInput) :
  convertible i ->
  exists f te td,
    to_float (get EMISSION_FACTORS (transport_type i) (PInt 0)) = Ok f /\
    te = (weekly_distance i * f)%float /\
    py_sum (map snd (diet_floats i)) = Ok (PFloat td) /\
    let fs := flight_weekly (short_flights i) 1000 0.24 in
    let fl := flight_weekly (long_flights i) 6000 0.18 in
    let h := household_weekly (electricity_kwh i) (gas_kwh i) in
    let w := (te + fs + fl + h + td)%float in
    on_submit i =
      (comparison ← get_footprint_comparison (PFloat (w * 52)) (country_choice i);
       recommendations ← get_recommendations (detailed_emissions_of i te);
       Ok {| weekly_total := PFloat w;
             annual_total := PFloat (w * 52);
             weekly_breakdown := [
               ("Transportation", PFloat te);
               ("Short Flights", PFloat fs);
               ("Long Flights", PFloat fl);
               ("Household Energy", PFloat h);
               ("Diet", PFloat td) ];
             comparison := comparison;
             recommendations := recommendations |}).
Proof.
  intros (Hs & Hl & Hd).
  destruct (transportation_run (transport_type i) (weekly_distance i)) as (f & Hf & Ht).
  destruct (py_sum_diet_floats i) as [td Htd].
  exists f, (weekly_distance i * f)%float, td.
  split; [exact Hf|]. split; [reflexivity|]. split; [exact Htd|].
  cbv zeta. unfold on_submit, detailed_emissions_of.
  rewrite Ht. cbn [mbind exc_bind].
  unfold short_flight_distance, long_flight_distance.
  rewrite factor_flight_short, factor_flight_long.
  cbn [py_mul to_float mbind exc_bind].
  rewrite (int_to_float_fits _ Hs), (int_to_float_fits _ Hl).
  cbn [py_truediv to_float mbind exc_bind].
  rewrite int_to_float_52. cbn [mbind exc_bind]. rewrite float_52_nonzero.
  cbn [mbind exc_bind].
  rewrite household_run. cbn [mbind exc_bind].
  rewrite (proj2 (diet_loop_run i (diet_floats i)) (conj Hd eq_refl)). cbn [mbind exc_bind].
  rewrite Htd. cbn [py_add py_mul to_float mbind exc_bind].
  rewrite int_to_float_52. cbn [mbind exc_bind].
  rewrite factor_electricity, factor_natural_gas. cbn [py_mul to_float mbind exc_bind].
  reflexivity.
Qed.

(** What a returned bundle is made of. *)
Lemma on_submit_parts (i : CalculationInput) (r : Results) :
  on_submit i = Ok r ->
  exists f te td,
    to_float (get EMISSION_FACTORS (transport_type i) (PInt 0)) = Ok f /\
    te = (weekly_distance i * f)%float /\
    py_sum (map snd (diet_floats i)) = Ok (PFloat td) /\
    let fs := flight_weekly (short_flights i) 1000 0.24 in
    let fl := flight_weekly (long_flights i) 6000 0.18 in
    let h := household_weekly (electricity_kwh i) (gas_kwh i) in
    let w := (te + fs + fl + h + td)%float in
    weekly_total r = PFloat w /\
    annual_total r = PFloat (w * 52) /\
    weekly_breakdown r = [
      ("Transportation", PFloat te);
      ("Short Flights", PFloat fs);
      ("Long Flights", PFloat fl);
      ("Household Energy", PFloat h);
      ("Diet", PFloat td) ] /\
    get_footprint_comparison (PFloat (w * 52)) (country_choice i) = Ok (comparison r) /\
    country (comparison r) = country_choice i /\
    status (comparison r) = band (percentage (comparison r)) /\
    get_recommendations (detailed_emissions_of i te) = Ok (recommendations r).
Proof.
  intros Hr. pose proof (on_submit_convertible i r Hr) as Hc.
  destruct (on_submit_steps i Hc) as (f & te & td & Hf & Hte & Htd & Hsteps).
  exists f, te, td. split; [exact Hf|]. split; [exact Hte|]. split; [exact Htd|].
  cbv zeta in Hsteps |- *. rewrite Hsteps in Hr.
  apply bind_Ok_inv in Hr. destruct Hr as (cmp & Hcmp & Hr).
  apply bind_Ok_inv in Hr. destruct Hr as (recs & Hrecs & Hr).
  injection Hr as <-. cbn [weekly_total annual_total weekly_breakdown comparison recommendations].
  match type of Hcmp with
  | get_footprint_comparison (PFloat ?a) _ = _ =>
      destruct (get_footprint_comparison_run a (country_choice i))
        as (z & n & cmp' & _ & _ & Hcmp' & Hcountry & _ & _ & Hband & _)
  end.
  rewrite Hcmp in Hcmp'. injection Hcmp' as <-.
  repeat split; assumption.
Qed.

(** X5. In the bundle of the handler the comparison is the comparator's
    answer for the bundle's own annual total and the country chosen in the
    form, it names that country, and the recommendations are the engine's
    answer for the per-detail mapping of the same answers. *)
Theorem handler_bundle_is_coherent (i : CalculationInput) (r : Results) :
  on_submit i = Ok r ->
  get_footprint_comparison (annual_total r) (country_choice i) = Ok (comparison r)
  /\ country (comparison r) = country_choice i
  /\ exists te,
       dict (weekly_breakdown r) !! "Transportation" = Some (PFloat te) /\
       get_recommendations (detailed_emissions_of i te) = Ok (recommendations r).
Proof.
  intros Hr.
  destruct (on_submit_parts i r Hr)
    as (f & te & td & _ & _ & _ & _ & Ha & Hb & Hcmp & Hcountry & _ & Hrecs).
  rewrite Ha. split; [exact Hcmp|]. split; [exact Hcountry|].
  exists te. rewrite Hb. split; [reflexivity | exact Hrecs].
Qed.

Lemma handler_bundle_is_coherent_witness :
  exists r, on_submit (scenario "India") = Ok r
    /\ get_footprint_comparison (annual_total r) "India" = Ok (comparison r)
    /\ country (comparison r) = "India".
Proof.
  destruct (on_submit_run (scenario "India") (scenario_convertible "India"))
    as (f & te & td & cmp & recs & _ & _ & _ & Hr).
  eexists. split; [exact Hr|].
  destruct (handler_bundle_is_coherent (scenario "India") _ Hr) as (H1 & H2 & _).
  split; [exact H1 | exact H2].
Defined.

Lemma diet_loop_raises (i : CalculationInput) (e : pyerr) :
  diet_loop (diet_inputs i) [] = Raise e -> e = OverflowError.
Proof.
  rewrite diet_inputs_items. cbn [diet_loop]. unfold calculate_food_emissions.
  destruct factor_diet as (-> & -> & -> & -> & ->).
  cbn [py_mul to_float mbind exc_bind]. unfold int_to_float.
  destruct (fits_float (diet_answers i "meat_beef")); cbn [mbind exc_bind]; [|congruence].
  destruct (fits_float (diet_answers i "meat_pork")); cbn [mbind exc_bind]; [|congruence].
  destruct (fits_float (diet_answers i "meat_chicken")); cbn [mbind exc_bind]; [|congruence].
  destruct (fits_float (diet_answers i "vegetarian")); cbn [mbind exc_bind]; [|congruence].
  destruct (fits_float (diet_answers i "vegan")); cbn [mbind exc_bind]; [|congruence].
  discriminate.
Qed.

Lemma int_to_float_overflow (z : Z) :
  fits_float z = false -> int_to_float z = Raise OverflowError.
Proof. unfold int_to_float. intros ->. reflexivity. Qed.

Ltac on_submit_to_flights i :=
  unfold on_submit, short_flight_distance, long_flight_distance;
  let f := fresh "f" in
  destruct (transportation_run (transport_type i) (weekly_distance i)) as (f & _ & ->);
  rewrite factor_flight_short, factor_flight_long;
  cbn [py_mul py_truediv to_float mbind exc_bind].

(** The handler returns or raises [OverflowError]. *)
Lemma on_submit_or_overflow (i : CalculationInput) :
  (convertible i /\ exists r, on_submit i = Ok r)
  \/ (~ convertible i /\ on_submit i = Raise OverflowError).
Proof.
  destruct (fits_float (short_flights i * 1000)) eqn:Hs.
  2: { right. split; [intros (H & _); congruence|]. on_submit_to_flights i.
       rewrite (int_to_float_overflow _ Hs). reflexivity. }
  destruct (fits_float (long_flights i * 6000)) eqn:Hl.
  2: { right. split; [intros (_ & H & _); congruence|]. on_submit_to_flights i.
       rewrite (int_to_float_fits _ Hs), (int_to_float_overflow _ Hl).
       cbn [py_truediv to_float mbind exc_bind].
       rewrite int_to_float_52. cbn [mbind exc_bind].
       rewrite float_52_nonzero. reflexivity. }
  destruct (diet_loop (diet_inputs i) []) as [des|e] eqn:Hd.
  - apply diet_loop_run in Hd. destruct Hd as [Hd _].
    assert (Hc : convertible i) by (repeat split; assumption).
    left. split; [exact Hc|].
    destruct (on_submit_run i Hc) as (f & te & td & cmp & recs & _ & _ & _ & Hr).
    eexists. exact Hr.
  - right. split.
    + intros (_ & _ & Hd').
      rewrite (proj2 (diet_loop_run i (diet_floats i)) (conj Hd' eq_refl)) in Hd.
      discriminate Hd.
    + pose proof (diet_loop_raises i e Hd) as ->. on_submit_to_flights i.
      rewrite (int_to_float_fits _ Hs), (int_to_float_fits _ Hl).
      cbn [py_truediv to_float mbind exc_bind].
      rewrite int_to_float_52. cbn [mbind exc_bind].
      rewrite float_52_nonzero. cbn [mbind exc_bind].
      rewrite household_run. cbn [mbind exc_bind]. rewrite Hd. reflexivity.
Qed.

(** X6. The only exception the handler can raise is [OverflowError], and
    it raises it exactly when an [int] answer (a flight distance, a meal
    count) is too large for a [float]: no key is ever missing, nothing is
    divided by zero. *)
Theorem on_submit_raises_only_overflow (i : CalculationInput) :
  (forall e, on_submit i = Raise e -> e = OverflowError)
  /\ ((exists e, on_submit i = Raise e) <-> ~ convertible i).
Proof.
  destruct (on_submit_or_overflow i) as [(Hc & r & Hr) | (Hc & Hr)]; rewrite Hr.
  - split; [discriminate|]. split; [intros [e He]; discriminate He | contradiction].
  - split; [congruence|]. split; [intros _; exact Hc | intros _; eauto].
Qed.

Lemma on_submit_raises_only_overflow_witness :
  on_submit {| transport_type := "car_petrol"; weekly_distance := 100;
               short_flights := 10 ^ 400; long_flights := 0;
               electricity_kwh := 100; gas_kwh := 0;
               diet_answers := fun _ => 0; country_choice := "UK" |}
  = Raise OverflowError.
Proof.
  destruct (on_submit
    {| transport_type := "car_petrol"; weekly_distance := 100;
       short_flights := 10 ^ 400; long_flights := 0;
       electricity_kwh := 100; gas_kwh := 0;
       diet_answers := fun _ => 0; country_choice := "UK" |}) as [r|e] eqn:E.
  - vm_compute in E. discriminate E.
  - f_equal.
    exact (proj1 (on_submit_raises_only_overflow _) e E).
Defined.

Lemma py_gt_30 (f : float) : py_gt (PFloat f) (PInt 30) = PrimFloat.ltb 30 f.
Proof.
  replace 30%float with (Z2float 30) by (vm_compute; reflexivity).
  float_threshold (30 * 2 ^ 48)%positive (-48).
Qed.

(** The emissions the engine reads under a car key: those of the transport
    mode when it is that car, nothing otherwise. *)
Lemma detailed_emissions_car (i : CalculationInput) (te : float) (k : string) :
  k = "car_petrol" \/ k = "car_diesel" ->
  get (detailed_emissions_of i te) k (PInt 0)
  = if String.eqb (transport_type i) k then PFloat te else PInt 0.
Proof.
  intros Hk. unfold detailed_emissions_of, dict, diet_floats, get.
  cbn [app fold_left fst snd].
  rewrite !lookup_insert_ne by (destruct Hk as [-> | ->]; discriminate).
  rewrite lookup_insert. destruct (String.eqb_spec (transport_type i) k) as [E|E].
  - rewrite decide_True by exact E. reflexivity.
  - rewrite decide_False by exact E. rewrite lookup_empty. reflexivity.
Qed.

Lemma In_recommendations_iff_fired (d : gmap string pynum) (meat : pynum) (msg : string) :
  In msg RULE_MESSAGES ->
  (In msg (match fired d meat with [] => GENERAL_RECOMMENDATIONS | m :: ms => m :: ms end)
   <-> In msg (fired d meat)).
Proof.
  intros Hmsg. destruct (fired d meat) as [|m ms]; [|reflexivity].
  split; [|intros []]. revert Hmsg. unfold RULE_MESSAGES, GENERAL_RECOMMENDATIONS. cbn [In].
  intros [<-|[<-|[<-|[<-|[<-|[<-|[]]]]]]] [H|[H|[H|[H|[]]]]]; discriminate H.
Qed.

(** X7. The advice about driving is given exactly when the transport mode
    is a petrol or a diesel car and its weekly emissions exceed 30 kg: an
    electric car, public transport or a motorcycle never draws it,
    whatever the distance. *)
Theorem driving_advice_only_for_cars (i : CalculationInput) (r : Results) :
  on_submit i = Ok r ->
  exists te,
    dict (weekly_breakdown r) !! "Transportation" = Some (PFloat te) /\
    (In REC_DRIVING (recommendations r) <->
     (transport_type i = "car_petrol" \/ transport_type i = "car_diesel")
     /\ (30 <? te)%float = true).
Proof.
  intros Hr.
  destruct (on_submit_parts i r Hr)
    as (f & te & td & _ & _ & _ & _ & _ & Hb & _ & _ & _ & Hrecs).
  exists te. rewrite Hb. split; [reflexivity|].
  set (d := detailed_emissions_of i te) in *.
  assert (Hd : float_valued d) by apply detailed_emissions_floats.
  destruct (meat_emissions_total d Hd) as [meat Hm].
  rewrite (get_recommendations_rules d meat Hm) in Hrecs. injection Hrecs as <-.
  rewrite In_recommendations_iff_fired by (cbn; tauto).
  rewrite (In_fired_iff (rule_table d meat)
             (py_gt (get d "car_petrol" (PInt 0)) (PInt 30)
              || py_gt (get d "car_diesel" (PInt 0)) (PInt 30)) REC_DRIVING).
  2: { rewrite rule_messages. exact rule_messages_NoDup. }
  2: { left. reflexivity. }
  subst d. rewrite !detailed_emissions_car by tauto.
  destruct (String.eqb_spec (transport_type i) "car_petrol") as [E1|E1];
  destruct (String.eqb_spec (transport_type i) "car_diesel") as [E2|E2];
    rewrite ?py_gt_30; cbn [py_gt Z.ltb Z.compare orb].
  - congruence.
  - rewrite orb_false_r. tauto.
  - tauto.
  - split; [discriminate | tauto].
Qed.

Lemma driving_advice_only_for_cars_witness :
  exists r te,
    on_submit {| transport_type := "motorcycle"; weekly_distance := 5000;
                 short_flights := 0; long_flights := 0;
                 electricity_kwh := 0; gas_kwh := 0;
                 diet_answers := fun _ => 0; country_choice := "UK" |} = Ok r /\
    dict (weekly_breakdown r) !! "Transportation" = Some (PFloat te) /\
    (30 <? te)%float = true /\
    ~ In REC_DRIVING (recommendations r).
Proof.
  set (i := {| transport_type := "motorcycle"; weekly_distance := 5000;
               short_flights := 0; long_flights := 0;
               electricity_kwh := 0; gas_kwh := 0;
               diet_answers := fun _ : string => 0; country_choice := "UK" |}).
  assert (Hc : convertible i).
  { repeat split. rewrite diet_inputs_items. repeat constructor. }
  destruct (on_submit_run i Hc) as (f & te & td & cmp & recs & Hf & Hte & _ & Hr).
  destruct (driving_advice_only_for_cars i _ Hr) as (te' & Hb & Hiff).
  eexists. exists te'. split; [exact Hr|]. split; [exact Hb|].
  cbn [weekly_breakdown] in Hb. injection Hb as <-.
  vm_compute in Hf. injection Hf as <-. subst te. split; [reflexivity|].
  intros Hin. apply Hiff in Hin. destruct Hin as [[H|H] _]; discriminate H.
Defined.

(** X8. Choosing another country changes nothing but the comparison: the
    handler returns as before, with the same breakdown, the same totals and
    the same recommendations, and the comparison names the new country. *)
Theorem country_changes_only_comparison (i : CalculationInput) (c : string) (r : Results) :
  on_submit i = Ok r ->
  exists r',
    on_submit (with_country i c) = Ok r' /\
    weekly_breakdown r' = weekly_breakdown r /\
    weekly_total r' = weekly_total r /\
    annual_total r' = annual_total r /\
    recommendations r' = recommendations r /\
    country (comparison r') = c.
Proof.
  intros Hr. pose proof (on_submit_convertible i r Hr) as Hc.
  assert (Hc' : convertible (with_country i c)) by exact Hc.
  destruct (on_submit_run _ Hc') as (f0 & te0 & td0 & cmp0 & recs0 & _ & _ & _ & Hr').
  cbv zeta in Hr'. eexists. split; [exact Hr'|].
  destruct (on_submit_parts _ _ Hr')
    as (f' & te' & td' & Hf' & Hte' & Htd' & Hw' & Ha' & Hb' & _ & Hcountry' & _ & Hrecs').
  destruct (on_submit_parts i r Hr)
    as (f & te & td & Hf & Hte & Htd & Hw & Ha & Hb & _ & _ & _ & Hrecs).
  cbn [with_country transport_type weekly_distance short_flights long_flights
       electricity_kwh gas_kwh country_choice] in *.
  change (diet_floats (with_country i c)) with (diet_floats i) in Htd'.
  change (detailed_emissions_of (with_country i c) te') with (detailed_emissions_of i te')
    in Hrecs'.
  rewrite Hf in Hf'. injection Hf' as <-. rewrite Htd in Htd'. injection Htd' as <-.
  subst te te'. rewrite Hrecs in Hrecs'. injection Hrecs' as Hrecs'.
  rewrite Hb', Hw', Ha', Hb, Hw, Ha. repeat split; [symmetry; exact Hrecs' | exact Hcountry'].
Qed.

Lemma country_changes_only_comparison_witness :
  exists r r',
    on_submit (scenario "UK") = Ok r /\
    on_submit (scenario "India") = Ok r' /\
    weekly_total r' = weekly_total r /\
    recommendations r' = recommendations r.
Proof.
  destruct (on_submit_run (scenario "UK") (scenario_convertible "UK"))
    as (f & te & td & cmp & recs & _ & _ & _ & Hr).
  destruct (country_changes_only_comparison (scenario "UK") "India" _ Hr)
    as (r' & Hr' & _ & Hw & _ & Hrecs & _).
  eexists. exists r'. split; [exact Hr|]. split; [exact Hr'|]. split; [exact Hw | exact Hrecs].
Defined.

(** X9. The export of the handler's bundle has eight rows: the five
    categories by week in the order of the form, the two totals, and the
    national average of the country chosen (that of "World" for a country
    the table does not have). *)
Theorem export_of_handler_bundle (i : CalculationInput) (r : Results) :
  on_submit i = Ok r ->
  exists te fs fl h td,
    format_emissions_for_download r = [
      {| Category := "Transportation"; Timeframe := "Weekly"; Emissions := te |};
      {| Category := "Short Flights"; Timeframe := "Weekly"; Emissions := fs |};
      {| Category := "Long Flights"; Timeframe := "Weekly"; Emissions := fl |};
      {| Category := "Household Energy"; Timeframe := "Weekly"; Emissions := h |};
      {| Category := "Diet"; Timeframe := "Weekly"; Emissions := td |};
      {| Category := "Total"; Timeframe := "Weekly"; Emissions := weekly_total r |};
      {| Category := "Total"; Timeframe := "Annual"; Emissions := annual_total r |};
      {| Category := "National Average"; Timeframe := "Annual";
         Emissions := get NATIONAL_AVERAGES (country_choice i) (PInt 4800) |} ] /\
    sum_in_order [te; fs; fl; h; td] = Ok (weekly_total r).
Proof.
  intros Hr.
  destruct (on_submit_parts i r Hr)
    as (f & te & td & _ & _ & _ & Hw & Ha & Hb & Hcmp & _ & _ & _).
  cbv zeta in Hw, Ha, Hb, Hcmp.
  match type of Hcmp with
  | get_footprint_comparison (PFloat ?a) _ = _ =>
      destruct (get_footprint_comparison_run a (country_choice i))
        as (z & n & cmp' & Hz & _ & Hcmp' & _ & Hna & _)
  end.
  rewrite Hcmp in Hcmp'. injection Hcmp' as <-.
  do 5 eexists. unfold format_emissions_for_download.
  rewrite Hb, Hw, Ha, Hna, Hz. split; reflexivity.
Qed.

Lemma export_of_handler_bundle_witness :
  exists r, on_submit (scenario "UK") = Ok r /\
    map Category (format_emissions_for_download r)
    = ["Transportation"; "Short Flights"; "Long Flights"; "Household Energy"; "Diet";
       "Total"; "Total"; "National Average"].
Proof.
  destruct (on_submit_run (scenario "UK") (scenario_convertible "UK"))
    as (f & te & td & cmp & recs & _ & _ & _ & Hr).
  destruct (export_of_handler_bundle (scenario "UK") _ Hr) as (a & b & c & d & e & Hrows & _).
  eexists. split; [exact Hr|]. rewrite Hrows. reflexivity.
Defined.



Lemma EMISSION_FACTORS_zero_distance :
  map_Forall (fun _ v => exists f, to_float v = Ok f /\ (0 * f)%float = 0%float) EMISSION_FACTORS.
Proof. apply dict_Forall. repeat constructor; eexists; split; vm_compute; reflexivity. Qed.

Lemma NATIONAL_AVERAGES_zero_ratio :
  map_Forall (fun _ v => exists n, to_float v = Ok n /\ (0 / n * 100)%float = 0%float)
             NATIONAL_AVERAGES.
Proof. apply dict_Forall. repeat constructor; eexists; split; vm_compute; reflexivity. Qed.

Lemma idle_week_convertible (transport c : string) : convertible (idle_week transport c).
Proof. repeat split. rewrite diet_inputs_items. repeat constructor. Qed.

(** X11. A week without travel, energy use or meals costs nothing, whatever
    the transport mode and the country: every category and both totals are
    0.0, the band is "low" and the recommendations are the general ones. *)
Theorem idle_week_costs_nothing (transport c : string) :
  exists r,
    on_submit (idle_week transport c) = Ok r /\
    weekly_breakdown r = [
      ("Transportation", PFloat 0);
      ("Short Flights", PFloat 0);
      ("Long Flights", PFloat 0);
      ("Household Energy", PFloat 0);
      ("Diet", PFloat 0) ] /\
    weekly_total r = PFloat 0 /\
    annual_total r = PFloat 0 /\
    percentage (comparison r) = PFloat 0 /\
    status (comparison r) = "low" /\
    recommendations r = GENERAL_RECOMMENDATIONS.
Proof.
  destruct (proj2 (on_submit_returns_iff _) (idle_week_convertible transport c)) as [r Hr].
  exists r. split; [exact Hr|].
  destruct (on_submit_parts _ _ Hr)
    as (f & te & td & Hf & Hte & Htd & Hw & Ha & Hb & Hcmp & _ & Hband & Hrecs).
  cbv zeta in Hw, Ha, Hb, Hcmp.
  cbn [idle_week transport_type weekly_distance short_flights long_flights
       electricity_kwh gas_kwh country_choice] in *.
  assert (Hte0 : te = 0%float).
  { subst te. unfold get in Hf.
    destruct (EMISSION_FACTORS !! transport) as [v|] eqn:E; cbn in Hf.
    - destruct (EMISSION_FACTORS_zero_distance transport v E) as (f' & Hf' & H0).
      rewrite Hf in Hf'. injection Hf' as <-. exact H0.
    - vm_compute in Hf. injection Hf as <-. reflexivity. }
  clear Hte. subst te. vm_compute in Htd. injection Htd as <-.
  change (0 + flight_weekly 0 1000 0.24 + flight_weekly 0 6000 0.18
          + household_weekly 0 0 + 0)%float with 0%float in *.
  change (flight_weekly 0 1000 0.24) with 0%float in Hb.
  change (flight_weekly 0 6000 0.18) with 0%float in Hb.
  change (household_weekly 0 0) with 0%float in Hb.
  change (0 * 52)%float with 0%float in *.
  assert (Hp : percentage (comparison r) = PFloat 0).
  { destruct (get_footprint_comparison_run 0 c)
      as (z & n & cmp & Hz & Hn & Hcmp' & _ & _ & Hp & _).
    rewrite Hcmp in Hcmp'. injection Hcmp' as <-. rewrite Hp. f_equal.
    unfold get in Hz. destruct (NATIONAL_AVERAGES !! c) as [v|] eqn:E; cbn in Hz.
    - destruct (NATIONAL_AVERAGES_zero_ratio c v E) as (n' & Hn' & H0).
      subst v. cbn [to_float] in Hn'. rewrite Hn in Hn'. injection Hn' as <-. exact H0.
    - injection Hz as <-. vm_compute in Hn. injection Hn as <-. reflexivity. }
  split; [exact Hb|]. split; [exact Hw|]. split; [exact Ha|]. split; [exact Hp|].
  split; [rewrite Hband, Hp; reflexivity|].
  assert (Hz : zero_valued (detailed_emissions_of (idle_week transport c) 0)).
  { apply dict_Forall. unfold diet_floats.
    repeat constructor; right; cbn [snd]; f_equal; vm_compute; reflexivity. }
  destruct (meat_emissions_zero _ Hz) as (meat & Hm & Hmz).
  rewrite (get_recommendations_rules _ _ Hm), (fired_zero _ _ Hz Hmz) in Hrecs.
  injection Hrecs as <-. reflexivity.
Qed.

(* ===================================================================== *)
(** ** Reading and saving footprints *)
(* ===================================================================== *)

Lemma find_by_id_In (t : Database.Table) (r : Database.CarbonFootprint) :
  Database.primary_key t -> In r t ->
  List.find (fun r' => Database.id r' =? Database.id r) t = Some r.
Proof.
  unfold Database.primary_key.
  induction t as [|r0 t IH]; intros Hpk Hin; [destruct Hin|].
  cbn [map] in Hpk. apply NoDup_cons in Hpk. destruct Hpk as [Hnotin Hpk].
  cbn [List.find]. destruct Hin as [-> | Hin].
  - rewrite Z.eqb_refl. reflexivity.
  - destruct (Database.id r0 =? Database.id r) eqn:E; [|exact (IH Hpk Hin)].
    apply Z.eqb_eq in E. exfalso. apply Hnotin. rewrite list_elem_of_In, E.
    apply in_map. exact Hin.
Qed.


(** X12. Looking a footprint up by its identifier returns [None] exactly
    when no row has it; otherwise it returns the dict of a row that has it,
    and, the identifier being a key, every stored row is found by its
    own. *)
Theorem get_footprint_by_id_finds (strftime : string -> string)
    (footprint_id : Z) (t : Database.Table) :
  Database.primary_key t ->
  (Store.get_footprint_by_id strftime Database.reliable footprint_id t = Database.Returned None
     <-> forall r, In r t -> Database.id r <> footprint_id)
  /\ (forall d,
        Store.get_footprint_by_id strftime Database.reliable footprint_id t
          = Database.Returned (Some d) ->
        Store.id d = footprint_id /\ exists r, In r t /\ d = Store.to_dict strftime r)
  /\ (forall r, In r t ->
        Store.get_footprint_by_id strftime Database.reliable (Database.id r) t
          = Database.Returned (Some (Store.to_dict strftime r))).
Proof.
  intros Hpk.
  unfold Store.get_footprint_by_id, Database.query_first_by_id.
  cbn [Database.select_ok Database.reliable Database.Session Database.table].
  split; [|split].
  - destruct (List.find _ t) as [r|] eqn:Hf.
    + split; [discriminate|]. intros Hno. exfalso.
      destruct (find_by_id_Some _ _ _ Hf) as [Hin Hid]. exact (Hno r Hin Hid).
    + split; [|reflexivity]. intros _. exact (find_by_id_None _ _ Hf).
  - intros d Hd. destruct (List.find _ t) as [r|] eqn:Hf; [|discriminate].
    injection Hd as <-. destruct (find_by_id_Some _ _ _ Hf) as [Hin Hid].
    split; [exact Hid|]. exists r. split; [exact Hin | reflexivity].
  - intros r Hin. rewrite (find_by_id_In t r Hpk Hin). reflexivity.
Qed.

Lemma get_footprint_by_id_finds_witness :
  Store.get_footprint_by_id (fun s => s) Database.reliable 2
    [sample_footprint 1; sample_footprint 2]
  = Database.Returned (Some (Store.to_dict (fun s => s) (sample_footprint 2))).
Proof.
  assert (Hpk : Database.primary_key [sample_footprint 1; sample_footprint 2]).
  { unfold Database.primary_key. cbn [map sample_footprint Database.id].
    apply NoDup_cons. split; [|apply NoDup_singleton].
    rewrite list_elem_of_In. intros [H|[]]. discriminate H. }
  destruct (get_footprint_by_id_finds (fun s => s) 2 _ Hpk) as (_ & _ & Hall).
  apply (Hall (sample_footprint 2)). right. left. reflexivity.
Defined.

(** X13. A search by email returns, in the order of the table, the dicts of
    exactly the rows with that email: it is what [get_all_footprints]
    returns, narrowed to that email. *)
Theorem get_footprints_by_email_selects (strftime : string -> string)
    (email : string) (t : Database.Table) :
  exists found all_,
    Store.get_footprints_by_email strftime Database.reliable email t = Database.Returned found /\
    Store.get_all_footprints strftime Database.reliable t = Database.Returned all_ /\
    found = List.filter (fun d => String.eqb (Store.email d) email) all_ /\
    length all_ = length t /\
    (forall d, In d found <->
       exists r, In r t /\ Database.email r = email /\ d = Store.to_dict strftime r).
Proof.
  eexists. eexists. split; [reflexivity|]. split; [reflexivity|].
  cbn [Database.table Database.Session]. split; [|split].
  - induction t as [|r t IH]; [reflexivity|].
    cbn [List.filter map Store.to_dict Store.email].
    destruct (String.eqb (Database.email r) email); cbn [map]; rewrite IH; reflexivity.
  - apply length_map.
  - intros d. rewrite in_map_iff. split.
    + intros (r & Hd & Hin). apply filter_In in Hin. destruct Hin as [Hin He].
      apply String.eqb_eq in He. exists r. auto.
    + intros (r & Hin & He & ->). exists r. split; [reflexivity|].
      apply filter_In. split; [exact Hin | apply String.eqb_eq; exact He].
Qed.

Lemma fresh_id_spec (new_id : Z) (t : Database.Table) :
  existsb (Z.eqb new_id) (map Database.id t) = false <->
  forall r, In r t -> Database.id r <> new_id.
Proof.
  split.
  - intros H r Hin Hid. assert (E : existsb (Z.eqb new_id) (map Database.id t) = true).
    { apply existsb_exists. exists (Database.id r). split; [apply in_map; exact Hin|].
      apply Z.eqb_eq. symmetry. exact Hid. }
    rewrite H in E. discriminate E.
  - intros H. destruct (existsb _ _) eqn:E; [|reflexivity].
    apply existsb_exists in E. destruct E as (x & Hx & Hx').
    apply in_map_iff in Hx. destruct Hx as (r & <- & Hin). apply Z.eqb_eq in Hx'.
    exfalso. exact (H r Hin (eq_sym Hx')).
Qed.

Lemma stored_row_fields (new_id : Z) (now : string) (f : Store.NewFootprint)
    (row : Database.CarbonFootprint) :
  Store.stored_row new_id now f = Some row ->
  Database.id row = new_id /\
  Database.user_name row = Store.new_user_name f /\
  Database.email row = Store.new_email f /\
  Database.country row = Store.new_country f /\
  Database.timestamp row = now /\
  (Store.char_length (Database.user_name row) <= 100)%nat /\
  (Store.char_length (Database.email row) <= 100)%nat /\
  (Store.char_length (Database.country row) <= 50)%nat /\
  Store.column_float (Store.new_weekly_total f) = Some (Database.weekly_total row) /\
  Store.column_float (Store.new_annual_total f) = Some (Database.annual_total row) /\
  Store.column_float (Store.new_transport_emissions f) = Some (Database.transport_emissions row) /\
  Store.column_float (Store.new_short_flights_emissions f)
    = Some (Database.short_flights_emissions row) /\
  Store.column_float (Store.new_long_flights_emissions f)
    = Some (Database.long_flights_emissions row) /\
  Store.column_float (Store.new_household_emissions f) = Some (Database.household_emissions row) /\
  Store.column_float (Store.new_diet_emissions f) = Some (Database.diet_emissions row).
Proof.
  unfold Store.stored_row.
  destruct (_ <=? 100)%nat eqn:L1; [|discriminate].
  destruct (Store.char_length (Store.new_email f) <=? 100)%nat eqn:L2; [|discriminate].
  destruct (Store.char_length (Store.new_country f) <=? 50)%nat eqn:L3; [|discriminate].
  cbn [andb].
  destruct (Store.column_float (Store.new_weekly_total f)) as [wt|]; [|discriminate].
  destruct (Store.column_float (Store.new_annual_total f)) as [at_|]; [|discriminate].
  destruct (Store.column_float (Store.new_transport_emissions f)) as [te|]; [|discriminate].
  destruct (Store.column_float (Store.new_short_flights_emissions f)) as [sf|]; [|discriminate].
  destruct (Store.column_float (Store.new_long_flights_emissions f)) as [lf|]; [|discriminate].
  destruct (Store.column_float (Store.new_household_emissions f)) as [he|]; [|discriminate].
  destruct (Store.column_float (Store.new_diet_emissions f)) as [de|]; [|discriminate].
  cbn. intros H. injection H as <-. cbn.
  apply Nat.leb_le in L1, L2, L3. repeat split; assumption.
Qed.

Lemma new_footprint_fields (user_name email : string) (results : Results)
    (f : Store.NewFootprint) :
  Store.new_footprint user_name email results = Store.Saved f ->
  Store.new_user_name f = user_name /\
  Store.new_email f = email /\
  Store.new_country f = country (comparison results) /\
  Store.new_weekly_total f = weekly_total results /\
  Store.new_annual_total f = annual_total results /\
  dict (weekly_breakdown results) !! "Transportation" = Some (Store.new_transport_emissions f) /\
  dict (weekly_breakdown results) !! "Short Flights"
    = Some (Store.new_short_flights_emissions f) /\
  dict (weekly_breakdown results) !! "Long Flights"
    = Some (Store.new_long_flights_emissions f) /\
  dict (weekly_breakdown results) !! "Household Energy"
    = Some (Store.new_household_emissions f) /\
  dict (weekly_breakdown results) !! "Diet" = Some (Store.new_diet_emissions f).
Proof.
  unfold Store.new_footprint, Store.breakdown_item.
  destruct (dict (weekly_breakdown results) !! "Transportation"); [|discriminate].
  destruct (dict (weekly_breakdown results) !! "Short Flights"); [|discriminate].
  destruct (dict (weekly_breakdown results) !! "Long Flights"); [|discriminate].
  destruct (dict (weekly_breakdown results) !! "Household Energy"); [|discriminate].
  destruct (dict (weekly_breakdown results) !! "Diet"); [|discriminate].
  intros H. injection H as <-. cbn. repeat split.
Qed.


(** The outcomes of [save_footprint], case by case. *)
Lemma save_footprint_cases (b : Database.Backend) (new_id : Z) (now : string)
    (user_name email : string) (results : Results) (t : Database.Table) :
  (exists e, Store.save_footprint b new_id now user_name email results t = (Store.Failed e, t))
  \/ exists f row,
       Store.new_footprint user_name email results = Store.Saved f /\
       Store.stored_row new_id now f = Some row /\
       (forall r, In r t -> Database.id r <> new_id) /\
       Database.commit_ok b = true /\
       Store.save_footprint b new_id now user_name email results t
       = (if Database.select_ok b then Store.Saved new_id
          else Store.Failed (Store.ServerError Database.OperationalError),
          (t ++ [row])%list).
Proof.
  unfold Store.save_footprint, Store.insert.
  destruct (Store.new_footprint user_name email results) as [f|e] eqn:Hf; [|left; eauto].
  destruct (Database.commit_ok b) eqn:Hb; [|left; eauto].
  destruct (Store.stored_row new_id now f) as [row|] eqn:Hrow; [|left; eauto].
  destruct (existsb _ _) eqn:E; [left; eauto|].
  right. exists f, row. rewrite fresh_id_spec in E.
  split; [reflexivity|]. split; [exact Hrow|]. split; [exact E|]. split; [reflexivity|].
  destruct (Database.select_ok b); reflexivity.
Qed.




(** X15. A save adds at most one row, at the end of the table and under the
    identifier drawn; when the call raises and the server still answers
    reads, nothing was stored. A bundle that lacks a category of the
    breakdown makes the call raise [KeyError] before anything is sent. *)
Theorem save_failure_stores_nothing (b : Database.Backend) (new_id : Z) (now : string)
    (user_name email : string) (results : Results) (t : Database.Table) :
  let outcome := (Store.save_footprint b new_id now user_name email results t).1 in
  let t' := (Store.save_footprint b new_id now user_name email results t).2 in
  (t' = t \/ exists row, t' = (t ++ [row])%list /\ Database.id row = new_id)
  /\ (forall e, Database.select_ok b = true -> outcome = Store.Failed e -> t' = t)
  /\ (forall key,
        In key ["Transportation"; "Short Flights"; "Long Flights"; "Household Energy"; "Diet"] ->
        dict (weekly_breakdown results) !! key = None ->
        exists key', outcome = Store.Failed (Store.KeyError key') /\ t' = t).
Proof.
  cbv zeta.
  destruct (save_footprint_cases b new_id now user_name email results t)
    as [[e He] | (f & row & Hf & Hrow & Hfresh & Hb & Hs)].
  - rewrite He. cbn [fst snd]. split; [left; reflexivity|]. split; [reflexivity|].
    intros key Hkey Hnone. revert He. unfold Store.save_footprint, Store.new_footprint,
      Store.breakdown_item.
    cbn [In] in Hkey.
    destruct (dict (weekly_breakdown results) !! "Transportation") eqn:K1;
      [|intros He; injection He as <-; eexists; split; reflexivity].
    destruct (dict (weekly_breakdown results) !! "Short Flights") eqn:K2;
      [|intros He; injection He as <-; eexists; split; reflexivity].
    destruct (dict (weekly_breakdown results) !! "Long Flights") eqn:K3;
      [|intros He; injection He as <-; eexists; split; reflexivity].
    destruct (dict (weekly_breakdown results) !! "Household Energy") eqn:K4;
      [|intros He; injection He as <-; eexists; split; reflexivity].
    destruct (dict (weekly_breakdown results) !! "Diet") eqn:K5;
      [|intros He; injection He as <-; eexists; split; reflexivity].
    exfalso. destruct Hkey as [<-|[<-|[<-|[<-|[<-|[]]]]]]; congruence.
  - rewrite Hs. cbn [fst snd]. split; [|split].
    + right. exists row. split; [reflexivity|].
      exact (proj1 (stored_row_fields _ _ _ _ Hrow)).
    + intros e Hsel. rewrite Hsel. discriminate.
    + intros key Hkey Hnone. exfalso.
      destruct (new_footprint_fields _ _ _ _ Hf) as (_ & _ & _ & _ & _ & K1 & K2 & K3 & K4 & K5).
      cbn [In] in Hkey. destruct Hkey as [<-|[<-|[<-|[<-|[<-|[]]]]]]; congruence.
Qed.

Lemma save_failure_stores_nothing_witness :
  (Store.save_footprint {| Database.select_ok := true; Database.commit_ok := false |}
     3 "2024-05-01 09:30:00" "Grace" "grace@example.org" sample_results
     [sample_footprint 1]).2 = [sample_footprint 1]
  /\ exists key',
       (Store.save_footprint Database.reliable 3 "2024-05-01 09:30:00" "Grace" "grace@example.org"
          {| weekly_total := PFloat 21; annual_total := PFloat 1092;
             weekly_breakdown := [("Transportation", PFloat 21)];
             comparison := comparison sample_results;
             recommendations := [] |}
          [sample_footprint 1]).1 = Store.Failed (Store.KeyError key').
Proof.
  split.
  - destruct (save_failure_stores_nothing
                {| Database.select_ok := true; Database.commit_ok := false |}
                3 "2024-05-01 09:30:00" "Grace" "grace@example.org" sample_results
                [sample_footprint 1]) as (_ & Hfail & _).
    exact (Hfail _ eq_refl eq_refl).
  - destruct (save_failure_stores_nothing Database.reliable
                3 "2024-05-01 09:30:00" "Grace" "grace@example.org"
                {| weekly_total := PFloat 21; annual_total := PFloat 1092;
                   weekly_breakdown := [("Transportation", PFloat 21)];
                   comparison := comparison sample_results;
                   recommendations := [] |}
                [sample_footprint 1]) as (_ & _ & Hkey).
    destruct (Hkey "Diet") as (key' & Hk & _).
    + cbn. tauto.
    + reflexivity.
    + exists key'. exact Hk.
Defined.



Lemma filter_other_ids_id (t : Database.Table) (x : Z) :
  (forall r, In r t -> Database.id r <> x) ->
  List.filter (fun r => negb (Database.id r =? x)) t = t.
Proof.
  intros H. apply forallb_filter_id. apply forallb_forall. intros r Hin.
  apply negb_true_iff, Z.eqb_neq. exact (H r Hin).
Qed.

(** The table after a delete, whatever the call returned. *)
Lemma delete_footprint_table (x : Z) (t : Database.Table) :
  (Database.delete_footprint Database.reliable x t).2
  = List.filter (fun r => negb (Database.id r =? x)) t.
Proof.
  destruct (List.find (fun r => Database.id r =? x) t) as [r|] eqn:Hf.
  - rewrite (delete_footprint_found _ _ _ Hf). reflexivity.
  - rewrite (delete_footprint_missing _ _ Hf). cbn [snd]. symmetry.
    apply filter_other_ids_id. exact (find_by_id_None _ _ Hf).
Qed.

Lemma find_by_id_filter_other (t : Database.Table) (x y : Z) :
  y <> x ->
  List.find (fun r => Database.id r =? y) (List.filter (fun r => negb (Database.id r =? x)) t)
  = List.find (fun r => Database.id r =? y) t.
Proof.
  intros Hy. induction t as [|r t IH]; [reflexivity|].
  cbn [List.filter List.find]. destruct (Database.id r =? x) eqn:Ex; cbn [negb List.find].
  - apply Z.eqb_eq in Ex. replace (Database.id r =? y) with false; [exact IH|].
    symmetry. apply Z.eqb_neq. congruence.
  - destruct (Database.id r =? y); [reflexivity | exact IH].
Qed.

Lemma find_by_id_filter_same (t : Database.Table) (x : Z) :
  List.find (fun r => Database.id r =? x) (List.filter (fun r => negb (Database.id r =? x)) t)
  = None.
Proof.
  induction t as [|r t IH]; [reflexivity|].
  cbn [List.filter]. destruct (Database.id r =? x) eqn:Ex; cbn [negb List.find].
  - exact IH.
  - rewrite Ex. exact IH.
Qed.

(** X17. Saving a footprint and then deleting it by the identifier returned
    gives back the table as it was. *)
Theorem save_then_delete_restores (new_id : Z) (now user_name email : string)
    (results : Results) (t t' : Database.Table) (fid : Z) :
  Store.save_footprint Database.reliable new_id now user_name email results t
    = (Store.Saved fid, t') ->
  Database.delete_footprint Database.reliable fid t' = (Database.Returned true, t).
Proof.
  intros Hsave.
  destruct (save_footprint_cases Database.reliable new_id now user_name email results t)
    as [[e He] | (f & row & Hf & Hrow & Hfresh & _ & Hs)].
  { rewrite He in Hsave. discriminate Hsave. }
  rewrite Hs in Hsave. cbn [Database.select_ok Database.reliable] in Hsave.
  injection Hsave as <- <-.
  pose proof (proj1 (stored_row_fields _ _ _ _ Hrow)) as Hid.
  assert (Hfind : List.find (fun r => Database.id r =? new_id) (t ++ [row]) = Some row).
  { clear Hs. induction t as [|r t IH]; cbn [app List.find].
    - rewrite Hid, Z.eqb_refl. reflexivity.
    - replace (Database.id r =? new_id) with false.
      + apply IH. intros r' Hr'. apply Hfresh. right. exact Hr'.
      + symmetry. apply Z.eqb_neq. apply Hfresh. left. reflexivity. }
  rewrite (delete_footprint_found _ _ _ Hfind). f_equal.
  rewrite List.filter_app. cbn [List.filter]. rewrite Hid, Z.eqb_refl. cbn [negb].
  rewrite app_nil_r. apply filter_other_ids_id. exact Hfresh.
Qed.

Lemma save_then_delete_restores_witness :
  Database.delete_footprint Database.reliable 3
    (Store.save_footprint Database.reliable 3 "2024-05-01 09:30:00" "Grace" "grace@example.org"
       sample_results [sample_footprint 1; sample_footprint 2]).2
  = (Database.Returned true, [sample_footprint 1; sample_footprint 2]).
Proof.
  exact (save_then_delete_restores 3 "2024-05-01 09:30:00" "Grace" "grace@example.org"
           sample_results [sample_footprint 1; sample_footprint 2] _ 3 eq_refl).
Defined.

(** X18. After a delete the identifier is not found any more, a second
    delete of it returns [False] and changes nothing, and the lookups by
    every other identifier are as before. *)
Theorem delete_then_lookup (strftime : string -> string) (footprint_id : Z)
    (t : Database.Table) :
  let t' := (Database.delete_footprint Database.reliable footprint_id t).2 in
  Store.get_footprint_by_id strftime Database.reliable footprint_id t' = Database.Returned None
  /\ Database.delete_footprint Database.reliable footprint_id t' = (Database.Returned false, t')
  /\ forall y, y <> footprint_id ->
       Store.get_footprint_by_id strftime Database.reliable y t'
       = Store.get_footprint_by_id strftime Database.reliable y t.
Proof.
  cbv zeta. rewrite delete_footprint_table.
  unfold Store.get_footprint_by_id, Database.query_first_by_id.
  cbn [Database.select_ok Database.reliable Database.Session Database.table].
  split; [|split].
  - rewrite find_by_id_filter_same. reflexivity.
  - apply delete_footprint_missing. apply find_by_id_filter_same.
  - intros y Hy. rewrite find_by_id_filter_other by exact Hy. reflexivity.
Qed.

(** X19. A footprint returned by a search by email can be deleted: on the
    same table, the delete of its identifier returns [True]. *)
Theorem found_footprint_can_be_deleted (strftime : string -> string) (email : string)
    (t : Database.Table) (found : list Store.FootprintDict) (d : Store.FootprintDict) :
  Store.get_footprints_by_email strftime Database.reliable email t = Database.Returned found ->
  In d found ->
  (Database.delete_footprint Database.reliable (Store.id d) t).1 = Database.Returned true
  /\ Store.email d = email.
Proof.
  intros Hfound Hin. injection Hfound as <-.
  apply in_map_iff in Hin. destruct Hin as (r & <- & Hin).
  cbn [Database.table Database.Session] in Hin. apply filter_In in Hin.
  destruct Hin as [Hin He]. apply String.eqb_eq in He.
  cbn [Store.to_dict Store.id Store.email]. split; [|exact He].
  destruct (List.find (fun r' => Database.id r' =? Database.id r) t) as [r'|] eqn:Hf.
  - rewrite (delete_footprint_found _ _ _ Hf). reflexivity.
  - exfalso. exact (find_by_id_None _ _ Hf r Hin eq_refl).
Qed.

Lemma found_footprint_can_be_deleted_witness :
  (Database.delete_footprint Database.reliable 2 [sample_footprint 1; sample_footprint 2]).1
  = Database.Returned true.
Proof.
  refine (proj1 (found_footprint_can_be_deleted (fun s => s) "ada@example.org"
            [sample_footprint 1; sample_footprint 2] _
            (Store.to_dict (fun s => s) (sample_footprint 2)) eq_refl _)).
  right. left. reflexivity.
Defined.



(* ===================================================================== *)
(** ** The order of the floats *)
(* ===================================================================== *)

Ltac key_solve :=
  cbn [SFcompare float_key fst snd CompOpp];
  eexists; (split; [reflexivity|]);
  split; split; intros; first [reflexivity | discriminate | lia].

Lemma SFcompare_key (x y : spec_float) :
  x <> S754_nan -> y <> S754_nan ->
  exists c, SFcompare x y = Some c /\
    (c = Lt <-> key_lt (float_key x) (float_key y)) /\
    (c = Gt <-> key_lt (float_key y) (float_key x)).
Proof.
  unfold key_lt.
  destruct x as [sx | sx | | sx mx ex]; destruct y as [sy | sy | | sy my ey];
    intros Hx Hy; try congruence; cbn [SFcompare float_key fst snd].
  - key_solve.
  - destruct sy; key_solve.
  - destruct sy; key_solve.
  - destruct sx; key_solve.
  - destruct sx, sy; key_solve.
  - destruct sx; try destruct sy; key_solve.
  - destruct sx; key_solve.
  - destruct sx, sy; key_solve.
  - destruct sx, sy;
      change (Pos.compare_cont Eq mx my) with (Z.pos mx ?= Z.pos my);
      try key_solve;
      destruct (Z.compare_spec ex ey); destruct (Z.compare_spec (Z.pos mx) (Z.pos my));
      cbn [CompOpp]; key_solve.
Qed.

Lemma number_not_nan (x : float) : PrimFloat.is_nan x = false -> Prim2SF x <> S754_nan.
Proof.
  unfold PrimFloat.is_nan. rewrite FloatAxioms.eqb_spec. intros H E. rewrite E in H.
  discriminate H.
Qed.

Lemma ltb_key (x y : float) :
  PrimFloat.is_nan x = false -> PrimFloat.is_nan y = false ->
  (PrimFloat.ltb x y = true <-> key_lt (float_key (Prim2SF x)) (float_key (Prim2SF y))).
Proof.
  intros Hx Hy. rewrite FloatAxioms.ltb_spec. unfold SFltb.
  destruct (SFcompare_key _ _ (number_not_nan x Hx) (number_not_nan y Hy))
    as (c & -> & Hlt & _).
  rewrite <- Hlt. destruct c; split; congruence.
Qed.

Lemma leb_key (x y : float) :
  PrimFloat.is_nan x = false -> PrimFloat.is_nan y = false ->
  (PrimFloat.leb x y = true <-> ~ key_lt (float_key (Prim2SF y)) (float_key (Prim2SF x))).
Proof.
  intros Hx Hy. rewrite FloatAxioms.leb_spec. unfold SFleb.
  destruct (SFcompare_key _ _ (number_not_nan x Hx) (number_not_nan y Hy))
    as (c & -> & _ & Hgt).
  rewrite <- Hgt. destruct c; split; congruence.
Qed.

Lemma key_lt_trans (a b c : Z * Z * Z) : ~ key_lt b a -> ~ key_lt c b -> ~ key_lt c a.
Proof. destruct a as [[a1 a2] a3], b as [[b1 b2] b3], c as [[c1 c2] c3]. unfold key_lt. cbn. lia. Qed.

Lemma key_lt_le_trans (a b c : Z * Z * Z) : key_lt a b -> ~ key_lt c b -> ~ key_lt c a.
Proof. destruct a as [[a1 a2] a3], b as [[b1 b2] b3], c as [[c1 c2] c3]. unfold key_lt. cbn. lia. Qed.

Lemma key_le_lt_trans (a b c : Z * Z * Z) : ~ key_lt b a -> key_lt b c -> ~ key_lt c a.
Proof. destruct a as [[a1 a2] a3], b as [[b1 b2] b3], c as [[c1 c2] c3]. unfold key_lt. cbn. lia. Qed.

Lemma key_lt_irrefl (a : Z * Z * Z) : ~ key_lt a a.
Proof. destruct a as [[a1 a2] a3]. unfold key_lt. cbn. lia. Qed.

(** Over numbers, [leb] is a total preorder that [ltb] refines. *)
Lemma leb_refl (x : float) : PrimFloat.is_nan x = false -> PrimFloat.leb x x = true.
Proof. intros Hx. apply (leb_key x x Hx Hx). apply key_lt_irrefl. Qed.

Lemma ltb_leb_trans (x y z : float) :
  PrimFloat.is_nan x = false -> PrimFloat.is_nan y = false -> PrimFloat.is_nan z = false ->
  PrimFloat.ltb x y = true -> PrimFloat.leb y z = true -> PrimFloat.leb x z = true.
Proof.
  intros Hx Hy Hz Hxy Hyz. apply (leb_key x z Hx Hz).
  apply (ltb_key x y Hx Hy) in Hxy. apply (leb_key y z Hy Hz) in Hyz.
  exact (key_lt_le_trans _ _ _ Hxy Hyz).
Qed.

Lemma leb_ltb_trans (x y z : float) :
  PrimFloat.is_nan x = false -> PrimFloat.is_nan y = false -> PrimFloat.is_nan z = false ->
  PrimFloat.leb x y = true -> PrimFloat.ltb y z = true -> PrimFloat.leb x z = true.
Proof.
  intros Hx Hy Hz Hxy Hyz. apply (leb_key x z Hx Hz).
  apply (ltb_key y z Hy Hz) in Hyz. apply (leb_key x y Hx Hy) in Hxy.
  exact (key_le_lt_trans _ _ _ Hxy Hyz).
Qed.

Lemma not_ltb_leb (x y : float) :
  PrimFloat.is_nan x = false -> PrimFloat.is_nan y = false ->
  PrimFloat.ltb x y = false -> PrimFloat.leb y x = true.
Proof.
  intros Hx Hy H. apply (leb_key y x Hy Hx). intros Hk.
  apply (ltb_key x y Hx Hy) in Hk. congruence.
Qed.

(** The running minimum of [py_min] is one of the items seen and below all
    of them; the running maximum of [py_max] is one of them and above all. *)
Lemma py_min_run (rest seen : list float) (m : float) :
  List.Forall (fun v => PrimFloat.is_nan v = false) (seen ++ rest) ->
  In m seen -> (forall v, In v seen -> PrimFloat.leb m v = true) ->
  In (py_min m rest) (seen ++ rest)
  /\ (forall v, In v (seen ++ rest) -> PrimFloat.leb (py_min m rest) v = true).
Proof.
  unfold py_min. revert seen m.
  induction rest as [|y rest IH]; intros seen m Hnum Hin Hle.
  - rewrite app_nil_r. split; assumption.
  - cbn [fold_left].
    replace (seen ++ y :: rest)%list with ((seen ++ [y]) ++ rest)%list in *
      by (rewrite <- app_assoc; reflexivity).
    assert (Hn : forall v, In v (seen ++ [y]) -> PrimFloat.is_nan v = false).
    { intros v Hv. rewrite List.Forall_forall in Hnum. apply Hnum.
      apply in_or_app. left. exact Hv. }
    assert (Hy : PrimFloat.is_nan y = false).
    { apply Hn. apply in_or_app. right. left. reflexivity. }
    assert (Hm : PrimFloat.is_nan m = false).
    { apply Hn. apply in_or_app. left. exact Hin. }
    apply IH; [exact Hnum| |].
    + destruct (PrimFloat.ltb y m); apply in_or_app;
        [right; left; reflexivity | left; exact Hin].
    + intros v Hv. apply in_app_or in Hv. destruct (PrimFloat.ltb y m) eqn:E.
      * destruct Hv as [Hv | [<- | []]].
        -- apply (ltb_leb_trans y m v); auto.
           apply Hn. apply in_or_app. left. exact Hv.
        -- apply leb_refl. exact Hy.
      * destruct Hv as [Hv | [<- | []]].
        -- apply Hle. exact Hv.
        -- apply not_ltb_leb; assumption.
Qed.

Lemma py_max_run (rest seen : list float) (m : float) :
  List.Forall (fun v => PrimFloat.is_nan v = false) (seen ++ rest) ->
  In m seen -> (forall v, In v seen -> PrimFloat.leb v m = true) ->
  In (py_max m rest) (seen ++ rest)
  /\ (forall v, In v (seen ++ rest) -> PrimFloat.leb v (py_max m rest) = true).
Proof.
  unfold py_max. revert seen m.
  induction rest as [|y rest IH]; intros seen m Hnum Hin Hle.
  - rewrite app_nil_r. split; assumption.
  - cbn [fold_left].
    replace (seen ++ y :: rest)%list with ((seen ++ [y]) ++ rest)%list in *
      by (rewrite <- app_assoc; reflexivity).
    assert (Hn : forall v, In v (seen ++ [y]) -> PrimFloat.is_nan v = false).
    { intros v Hv. rewrite List.Forall_forall in Hnum. apply Hnum.
      apply in_or_app. left. exact Hv. }
    assert (Hy : PrimFloat.is_nan y = false).
    { apply Hn. apply in_or_app. right. left. reflexivity. }
    assert (Hm : PrimFloat.is_nan m = false).
    { apply Hn. apply in_or_app. left. exact Hin. }
    apply IH; [exact Hnum| |].
    + destruct (PrimFloat.ltb m y); apply in_or_app;
        [right; left; reflexivity | left; exact Hin].
    + intros v Hv. apply in_app_or in Hv. destruct (PrimFloat.ltb m y) eqn:E.
      * destruct Hv as [Hv | [<- | []]].
        -- apply (leb_ltb_trans v m y); auto.
           apply Hn. apply in_or_app. left. exact Hv.
        -- apply leb_refl. exact Hy.
      * destruct Hv as [Hv | [<- | []]].
        -- apply Hle. exact Hv.
        -- apply not_ltb_leb; assumption.
Qed.

(* ===================================================================== *)
(** ** The analytics of the saved footprints *)
(* ===================================================================== *)

Lemma footprint_analytics_inv (fs : list Store.FootprintDict) (a : Analytics) :
  footprint_analytics fs = Some (Ok a) ->
  exists x rest,
    map Store.annual_total fs = x :: rest
    /\ (1 < length fs)%nat
    /\ min_annual a = py_min x rest /\ max_annual a = py_max x rest.
Proof.
  unfold footprint_analytics. destruct (1 <? length fs)%nat eqn:Hlen; [|discriminate].
  apply Nat.ltb_lt in Hlen.
  destruct (map Store.annual_total fs) as [|x rest] eqn:Hmap; [discriminate|].
  intros H. injection H as H.
  apply bind_Ok_inv in H. destruct H as (total & _ & H).
  apply bind_Ok_inv in H. destruct H as (avg & _ & H).
  injection H as <-. exists x, rest. cbn. auto.
Qed.

(** X21. The analytics under "View All Saved Footprints": whenever the three
    metrics are shown for a table whose annual totals are numbers, the
    minimum and the maximum are the annual totals of saved rows, and every
    saved row's annual total lies between them. *)
Theorem analytics_min_max_bound
    (strftime : string -> string) (b : Database.Backend) (t : Database.Table)
    (all_footprints : list Store.FootprintDict) (a : Analytics) :
  List.Forall (fun r => PrimFloat.is_nan (Database.annual_total r) = false) t ->
  Store.get_all_footprints strftime b t = Database.Returned all_footprints ->
  footprint_analytics all_footprints = Some (Ok a) ->
  (exists r, In r t /\ Database.annual_total r = min_annual a)
  /\ (exists r, In r t /\ Database.annual_total r = max_annual a)
  /\ (forall r, In r t ->
        PrimFloat.leb (min_annual a) (Database.annual_total r) = true
        /\ PrimFloat.leb (Database.annual_total r) (max_annual a) = true).
Proof.
  intros Hnum Hget Ha.
  unfold Store.get_all_footprints, Store.query_all in Hget.
  destruct (Database.select_ok b); [|discriminate].
  cbn in Hget. injection Hget as <-.
  destruct (footprint_analytics_inv _ _ Ha) as (x & rest & Hmap & _ & -> & ->).
  rewrite map_map in Hmap. cbn in Hmap.
  assert (Hn : List.Forall (fun v => PrimFloat.is_nan v = false) ([x] ++ rest)).
  { cbn [app]. rewrite <- Hmap. rewrite List.Forall_forall in *.
    intros v Hv. apply in_map_iff in Hv. destruct Hv as (r & <- & Hr). apply Hnum, Hr. }
  assert (Hx : PrimFloat.is_nan x = false).
  { rewrite List.Forall_forall in Hn. apply Hn. left. reflexivity. }
  destruct (py_min_run rest [x] x Hn) as [Hmin_in Hmin].
  { left. reflexivity. }
  { intros v [<- | []]. apply leb_refl, Hx. }
  destruct (py_max_run rest [x] x Hn) as [Hmax_in Hmax].
  { left. reflexivity. }
  { intros v [<- | []]. apply leb_refl, Hx. }
  cbn [app] in *. rewrite <- Hmap in Hmin_in, Hmax_in, Hmin, Hmax.
  repeat split.
  - apply in_map_iff in Hmin_in. destruct Hmin_in as (r & E & Hr). exists r. auto.
  - apply in_map_iff in Hmax_in. destruct Hmax_in as (r & E & Hr). exists r. auto.
  - apply Hmin. apply in_map_iff. exists r. auto.
  - apply Hmax. apply in_map_iff. exists r. auto.
Qed.

Lemma analytics_min_max_bound_witness :
  exists a,
    footprint_analytics (map (Store.to_dict (fun s => s)) three_saved_rows) = Some (Ok a)
    /\ min_annual a = 546%float /\ max_annual a = 6240%float
    /\ (forall r, In r three_saved_rows ->
          PrimFloat.leb (min_annual a) (Database.annual_total r) = true
          /\ PrimFloat.leb (Database.annual_total r) (max_annual a) = true).
Proof.
  eexists. split; [vm_compute; reflexivity|].
  split; [reflexivity|]. split; [reflexivity|].
  apply (analytics_min_max_bound (fun s => s) Database.reliable three_saved_rows
           (map (Store.to_dict (fun s => s)) three_saved_rows)).
  - repeat constructor.
  - reflexivity.
  - vm_compute. reflexivity.
Defined.

